(** * HyperHDR web server: settings reconciliation

    A shallow embedding of [sources/webserver/WebServer.cpp]: the port
    probe [WebServer::portAvailable], the two listener callbacks
    [onServerStarted] / [onServerStopped] and the settings handler
    [WebServer::handleSettingsUpdate], together with the properties of the
    design document that concern them.

    Conventions.
    - [quint16] values are integers of [Z]; every wrap-around of the C++
      code is written out with [to_quint16].
    - What the operating system, the file system, the clock and Qt answer
      is collected in one record, [Env]; the code is a function of it.
    - Every observable effect of a member function (a log line, a call to a
      collaborator, an emitted signal) is an [Event]; a member function
      returns the events it produced, in program order. *)

From Stdlib Require Import ZArith List String Ascii Bool Lia.
Import ListNotations.
Local Open Scope Z_scope.

(** ** Machine integers *)

Module Quint16.

Definition modulus : Z := 65536.

(** Conversion of an integer to [quint16] (reduction modulo 2^16). *)
Definition to_quint16 (z : Z) : Z := z mod modulus.

(** [port++] on a [quint16]. *)
Definition incr (p : Z) : Z := to_quint16 (p + 1).

Definition in_range (p : Z) : Prop := 0 <= p < modulus.

End Quint16.
Import Quint16.

(** ** Values handed around by the code *)

(** [QDateTime]: an instant, in milliseconds since the epoch, together
    with the time specification it is read in, as the offset of that
    specification from UTC in milliseconds (0 for [Qt::UTC], the offset of
    the zone of the host for [Qt::LocalTime]). *)
Record QDateTime := {
  msecsSinceEpoch : Z;
  offsetFromUtc : Z
}.

(** An instant read in UTC. *)
Definition utc (t : Z) : QDateTime :=
  {| msecsSinceEpoch := t; offsetFromUtc := 0 |}.

Definition msecsPerDay : Z := 86400000.

(** [QDateTime::date()], as a day number: the calendar date of the instant
    in the time specification of the object. *)
Definition dateOf (t : QDateTime) : Z :=
  (msecsSinceEpoch t + offsetFromUtc t) / msecsPerDay.

(** [QDateTime::daysTo]: Qt answers [date().daysTo(other.date())], the
    days between the two calendar dates, each taken in the time
    specification of its own object; neither object is converted to the
    specification of the other, and elapsed periods of 24 hours are not
    what is counted. *)
Definition daysTo (a b : QDateTime) : Z := dateOf b - dateOf a.

Record QSslCertificate := {
  cert_isNull : bool;
  (** the [notAfter] of the certificate, in milliseconds since the epoch *)
  cert_notAfter : Z;
  cert_raw : string
}.

(** [QSslCertificate::expiryDate()]: the [notAfter] of the certificate, as
    a [QDateTime] in UTC. *)
Definition expiryDate (c : QSslCertificate) : QDateTime :=
  utc (cert_notAfter c).

Record QSslKey := {
  key_isNull : bool;
  key_raw : string
}.

(** A default-constructed [QSslKey]. *)
Definition nullKey : QSslKey := {| key_isNull := true; key_raw := "" |}.

(** [settings::type]. The enumeration is declared outside this file; only
    its enumerator [WEBSERVER] is named here, the others are kept apart by
    a tag. *)
Inductive settings_type :=
| WEBSERVER
| OTHER_SETTINGS (tag : nat).

Definition settings_type_eqb (a b : settings_type) : bool :=
  match a, b with
  | WEBSERVER, WEBSERVER => true
  | OTHER_SETTINGS n, OTHER_SETTINGS m => Nat.eqb n m
  | _, _ => false
  end.

(** The members of the JSON object that the handler reads, under their
    keys. [None] stands for a member that is absent or not of the type
    asked for, in which case [toString(def)] / [toInt(def)] answer the
    default. *)
Record QJsonObject := {
  cfg_document_root : option string;
  cfg_port : option Z;
  cfg_sslPort : option Z;
  cfg_keyPath : option string;
  cfg_crtPath : option string;
  cfg_keyPassPhrase : option string
}.

Definition toString (v : option string) (def : string) : string :=
  match v with Some s => s | None => def end.

(** The values of a C++ [int]. *)
Definition fitsInt (z : Z) : bool :=
  (-2147483648 <=? z) && (z <=? 2147483647).

(** [QJsonValue::toInt(def)]: a number that does not fit an [int] answers
    the default, as a member that is absent does. *)
Definition toInt (v : option Z) (def : Z) : Z :=
  match v with
  | Some z => if fitsInt z then z else def
  | None => def
  end.

(** [QChar::isSpace] on the Latin-1 range. *)
Definition isSpace (c : ascii) : bool :=
  let n := Z.of_nat (nat_of_ascii c) in
  (n =? 32) || ((9 <=? n) && (n <=? 13)) || (n =? 133) || (n =? 160).

(** [s.trimmed().isEmpty()]: nothing but white space. *)
Fixpoint trimmedIsEmpty (s : string) : bool :=
  match s with
  | EmptyString => true
  | String c s' => isSpace c && trimmedIsEmpty s'
  end.

(** ** Environment *)

Record Env := {
  (** [QTcpServer::listen(QHostAddress::Any, port)] succeeds *)
  listen : Z -> bool;
  (** the port that the operating system chooses for a listener that asked
      for port 0 *)
  anyPort : Z;
  (** [QFileInfo::exists] *)
  fileExists : string -> bool;
  (** [QFileInfo::isDir] *)
  fileIsDir : string -> bool;
  (** [QSslCertificate::fromDevice] on the opened file, PEM *)
  fromDevice : string -> list QSslCertificate;
  (** [QSslKey(&file, Rsa, Pem, PrivateKey, passPhrase)] *)
  loadKey : string -> string -> QSslKey;
  (** [QDateTime::currentDateTime()], one instant for a whole call, in the
      local time of the host *)
  currentDateTime : QDateTime;
  (** whether the build defines [ENABLE_BONJOUR] *)
  ENABLE_BONJOUR : bool;
  (** constants of [WebServer.h] *)
  WEBSERVER_DEFAULT_PATH : string;
  WEBSERVER_DEFAULT_KEY_PATH : string;
  WEBSERVER_DEFAULT_CRT_PATH : string
}.

(** ** Events *)

Inductive LogLevel := LInfo | LWarning | LError.

(** One constructor for each format string of the file, with its
    arguments. *)
Inductive LogMsg :=
| MsgInitialize
| MsgStarted (port : Z) (name : string)
| MsgStopped (name : string)
| MsgServerError (msg : string)
| MsgPortInUse (port : Z)
| MsgPortInstead (prevPort port : Z)
| MsgApplySettings
| MsgDocumentRootInvalid (path : string)
| MsgSetDocumentRoot (path : string)
| MsgNoKeyFound (path : string)
| MsgNoCertificateFound (path : string)
| MsgCertificateInvalid (path : string)
| MsgSetupCertificate
| MsgNoValidCertificate (path : string)
| MsgKeyInvalid (path : string)
| MsgSetupKey.

(** Modelled from the spec: class [BonjourServiceRegister]
    (bonjour/bonjourserviceregister.h), the service announcer of section 6.
    Creating the object for a port and calling [registerService] is
    [announce port]; deleting the object is [withdraw]; [getPort] answers
    the port the object was created for. *)
Inductive BonjourCall :=
| announce (port : Z)
| withdraw.

Inductive Event :=
| Log (lvl : LogLevel) (msg : LogMsg)
(** the probe server of [portAvailable] tried to bind [port] *)
| Probe (port : Z) (ok : bool)
(** the probe server was closed *)
| ProbeClose
(** [_staticFileServing->setBaseUrl] *)
| SetBaseUrl (url : string)
(** [_server->stop()] and [_server->start(port)] were called *)
| ServerStop
| ServerStart (port : Z)
(** [QFile::open] on the certificate file or on the key file *)
| OpenFile (path : string)
(** [_server->setCertificates] and [_server->setPrivateKey] *)
| SetCertificates (certs : list QSslCertificate)
| SetPrivateKey (key : QSslKey)
(** a call of the service announcer *)
| Bonjour (call : BonjourCall)
(** signals of [WebServer] *)
| StateChange (listening : bool)
| PortChanged (port : Z).


Definition isPortInstead (e : Event) : bool :=
  match e with Log LWarning (MsgPortInstead _ _) => true | _ => false end.

Definition isProbe (e : Event) : bool :=
  match e with Probe _ _ | ProbeClose => true | _ => false end.

Definition isServerStop (e : Event) : bool :=
  match e with ServerStop => true | _ => false end.

Definition isServerStart (e : Event) : bool :=
  match e with ServerStart _ => true | _ => false end.

(** Loading of TLS material: a file opened, a half of the identity set. *)
Definition isTlsLoad (e : Event) : bool :=
  match e with OpenFile _ | SetCertificates _ | SetPrivateKey _ => true | _ => false end.

Definition isSetCertificates (e : Event) : bool :=
  match e with SetCertificates _ => true | _ => false end.


Definition isStateChange (b : bool) (e : Event) : bool :=
  match e with StateChange b' => Bool.eqb b b' | _ => false end.

Definition isAnnounce (e : Event) : bool :=
  match e with Bonjour (announce _) => true | _ => false end.

Definition isWithdraw (e : Event) : bool :=
  match e with Bonjour withdraw => true | _ => false end.

(** The events of the document root block: log lines and the call of
    [setBaseUrl]. *)
Definition isDocumentRootEvent (e : Event) : bool :=
  match e with Log _ _ | SetBaseUrl _ => true | _ => false end.

(** The events of the TLS block: log lines, files opened, halves set. *)
Definition isTlsEvent (e : Event) : bool :=
  match e with
  | Log _ _ | OpenFile _ | SetCertificates _ | SetPrivateKey _ => true
  | _ => false
  end.

(** The events of [WebServer::stop]: the call and what [onServerStopped]
    does. *)
Definition isStopEvent (e : Event) : bool :=
  match e with
  | ServerStop | Log LInfo (MsgStopped _) | StateChange false => true
  | _ => false
  end.

(** The events of [WebServer::start]: the call and what the slots
    [onServerStopped], [onServerStarted] and [onServerError] do. *)
Definition isStartEvent (e : Event) : bool :=
  match e with
  | ServerStart _ | Log LInfo (MsgStopped _) | Log LInfo (MsgStarted _ _)
  | Log LError (MsgServerError _) | Bonjour _ | StateChange _ => true
  | _ => false
  end.

(** The events of the three slots: log lines, Bonjour, [stateChange]. *)
Definition isSlotEvent (e : Event) : bool :=
  match e with
  | Log _ _ | Bonjour _ | StateChange _ => true
  | _ => false
  end.

(** Log lines and the setting of the key: what the TLS block produces
    apart from opening files and setting certificates. *)
Definition isLogOrSetKey (e : Event) : bool :=
  match e with Log _ _ | SetPrivateKey _ => true | _ => false end.

(** The events of the loop of [portAvailable]: attempts and their
    warnings. *)
Definition isProbeStep (e : Event) : bool :=
  match e with
  | Probe _ _ | Log LWarning (MsgPortInUse _) => true
  | _ => false
  end.

(** The events of [portAvailable]: those of the loop, the closing of the
    probe, and the closing warning. *)
Definition isNegotiation (e : Event) : bool :=
  match e with
  | Probe _ _ | ProbeClose | Log LWarning (MsgPortInUse _)
  | Log LWarning (MsgPortInstead _ _) => true
  | _ => false
  end.

(** Number of events of a trace that satisfy [f]. *)
Definition count (f : Event -> bool) (tr : list Event) : nat :=
  List.length (filter f tr).

(** ** [WebServer::portAvailable] *)

Section PortAvailable.

Variable E : Env.

(** The [while] loop of [portAvailable]. The probe server is asked for
    [port]; each refusal is logged and moves on to [port + 1] as a
    [quint16]. [fuel] bounds the number of attempts. *)
Fixpoint probe (fuel : nat) (port : Z) : option (Z * list Event) :=
  match fuel with
  | O => None
  | S fuel' =>
      if listen E port then Some (port, [Probe port true])
      else
        match probe fuel' (incr port) with
        | Some (p, evs) =>
            Some (p, Probe port false :: Log LWarning (MsgPortInUse port) :: evs)
        | None => None
        end
  end.

(** There are [modulus] ports and the answers of [listen] do not change
    while the loop runs, so a loop that was refused [modulus] times in a
    row is refused forever (see [probe_exhausted] and [probe_fuel_mono]
    below): [None] is the run that does not return. The result is the
    returned [bool] and the final value of the reference parameter. *)
Definition portAvailable (port : Z) : option (bool * Z * list Event) :=
  let prevPort := port in
  match probe (Z.to_nat modulus) port with
  | None => None
  | Some (port, evs) =>
      if negb (port =? prevPort)
      then Some (false, port,
                 evs ++ [ProbeClose; Log LWarning (MsgPortInstead prevPort port)])
      else Some (true, port, evs ++ [ProbeClose])
  end.

End PortAvailable.

(** ** The HTTP server object *)

Module QtHttpServer.

(** Modelled from the spec: the listener states of section 3
    ([ListenerState]). [Starting] is only passed through inside [start],
    which binds at once, so it is never the state between two calls. *)
Inductive ListenerState :=
| Stopped
| Starting
| Listening (port : Z)
| Failed (reason : string).

(** Modelled from the spec: the members of class [QtHttpServer] that
    [WebServer.cpp] reads and writes (listener state, secure flag, server
    name, and the installed TLS identity of section 3). *)
Record t := {
  state : ListenerState;
  useSecure : bool;
  serverName : string;
  certificates : list QSslCertificate;
  privateKey : QSslKey
}.

(** Modelled from the spec: the three events of section 4.3. *)
Inductive Signal :=
| started (port : Z)
| stopped
| error (msg : string).

Definition with_state (st : ListenerState) (s : t) : t :=
  {| state := st; useSecure := useSecure s; serverName := serverName s;
     certificates := certificates s; privateKey := privateKey s |}.

(** Modelled from the spec: [QtHttpServer::isListening], true exactly in
    state [Listening]. *)
Definition isListening (s : t) : bool :=
  match state s with Listening _ => true | _ => false end.

(** Modelled from the spec: [QtHttpServer::stop] (section 4.3), valid in
    every state; from [Listening] it closes the listener and emits
    [stopped], otherwise it does nothing. *)
Definition stop (s : t) : t * list Signal :=
  if isListening s then (with_state Stopped s, [stopped]) else (s, []).

(** Modelled from the spec: [QtHttpServer::start] (section 4.3). A start
    while [Listening] first implicitly stops, then starts; the implicit
    stop is [stop] itself, which does nothing to a listener that is not
    bound. On a successful bind the state becomes [Listening] and
    [started] is emitted, both with the effective port [bound port], the
    port that the listener reports once it is bound; on a failed bind the
    state becomes [Failed] and [error] is emitted. *)
Definition start (canBind : Z -> bool) (bound : Z -> Z) (port : Z) (s : t)
  : t * list Signal :=
  let '(s, sigs) := stop s in
  if canBind port
  then (with_state (Listening (bound port)) s, sigs ++ [started (bound port)])
  else (with_state (Failed "bind failed") s, sigs ++ [error "bind failed"]).

(** Modelled from the spec: the setters of the TLS identity and of the
    name store their argument. *)
Definition setCertificates (l : list QSslCertificate) (s : t) : t :=
  {| state := state s; useSecure := useSecure s; serverName := serverName s;
     certificates := l; privateKey := privateKey s |}.

Definition setPrivateKey (k : QSslKey) (s : t) : t :=
  {| state := state s; useSecure := useSecure s; serverName := serverName s;
     certificates := certificates s; privateKey := k |}.

Definition setServerName (n : string) (s : t) : t :=
  {| state := state s; useSecure := useSecure s; serverName := n;
     certificates := certificates s; privateKey := privateKey s |}.

Definition setUseSecure (s : t) : t :=
  {| state := state s; useSecure := true; serverName := serverName s;
     certificates := certificates s; privateKey := privateKey s |}.

(** Modelled from the spec: a new [QtHttpServer] is stopped and has no
    identity. *)
Definition create : t :=
  {| state := Stopped; useSecure := false; serverName := "";
     certificates := []; privateKey := nullKey |}.

End QtHttpServer.

(** ** The [WebServer] object *)

Record WebServer := {
  _port : Z;
  _useSsl : bool;
  _inited : bool;
  _baseUrl : string;
  (** a member: [initServer] assigns it *)
  WEBSERVER_DEFAULT_PORT : Z;
  _server : QtHttpServer.t;
  (** the base url held by the [StaticFileServing] object *)
  _staticFileServing : string;
  (** [nullptr], or the [BonjourServiceRegister] object, as its port *)
  _serviceRegister : option Z
}.

Definition with_port (p : Z) (w : WebServer) : WebServer :=
  {| _port := p; _useSsl := _useSsl w; _inited := _inited w; _baseUrl := _baseUrl w;
     WEBSERVER_DEFAULT_PORT := WEBSERVER_DEFAULT_PORT w; _server := _server w;
     _staticFileServing := _staticFileServing w; _serviceRegister := _serviceRegister w |}.

Definition with_inited (b : bool) (w : WebServer) : WebServer :=
  {| _port := _port w; _useSsl := _useSsl w; _inited := b; _baseUrl := _baseUrl w;
     WEBSERVER_DEFAULT_PORT := WEBSERVER_DEFAULT_PORT w; _server := _server w;
     _staticFileServing := _staticFileServing w; _serviceRegister := _serviceRegister w |}.

Definition with_baseUrl (u : string) (w : WebServer) : WebServer :=
  {| _port := _port w; _useSsl := _useSsl w; _inited := _inited w; _baseUrl := u;
     WEBSERVER_DEFAULT_PORT := WEBSERVER_DEFAULT_PORT w; _server := _server w;
     _staticFileServing := _staticFileServing w; _serviceRegister := _serviceRegister w |}.

(** [_staticFileServing->setBaseUrl(u)] *)
Definition with_staticFileServing (u : string) (w : WebServer) : WebServer :=
  {| _port := _port w; _useSsl := _useSsl w; _inited := _inited w; _baseUrl := _baseUrl w;
     WEBSERVER_DEFAULT_PORT := WEBSERVER_DEFAULT_PORT w; _server := _server w;
     _staticFileServing := u; _serviceRegister := _serviceRegister w |}.

Definition with_server (s : QtHttpServer.t) (w : WebServer) : WebServer :=
  {| _port := _port w; _useSsl := _useSsl w; _inited := _inited w; _baseUrl := _baseUrl w;
     WEBSERVER_DEFAULT_PORT := WEBSERVER_DEFAULT_PORT w; _server := s;
     _staticFileServing := _staticFileServing w; _serviceRegister := _serviceRegister w |}.

Definition with_serviceRegister (r : option Z) (w : WebServer) : WebServer :=
  {| _port := _port w; _useSsl := _useSsl w; _inited := _inited w; _baseUrl := _baseUrl w;
     WEBSERVER_DEFAULT_PORT := WEBSERVER_DEFAULT_PORT w; _server := _server w;
     _staticFileServing := _staticFileServing w; _serviceRegister := r |}.

Definition isListening (w : WebServer) : bool := QtHttpServer.isListening (_server w).

(** A member function: from the object to the object after the call and
    the events of the call, or [None] when the call does not return. *)
Definition Act := WebServer -> option (WebServer * list Event).

Definition andThen (a b : Act) : Act :=
  fun w =>
    match a w with
    | None => None
    | Some (w1, evs1) =>
        match b w1 with
        | None => None
        | Some (w2, evs2) => Some (w2, evs1 ++ evs2)
        end
    end.

Definition total (f : WebServer -> WebServer * list Event) : Act :=
  fun w => Some (f w).

Declare Scope act_scope.
Delimit Scope act_scope with act.
Notation "a ;; b" := (andThen a b) (at level 61, right associativity) : act_scope.

Section WebServerCode.

Variable E : Env.

(** [WebServer::onServerStarted]. The block under [ENABLE_BONJOUR] makes
    a registration when there is none, and replaces it when its port
    differs from the new one. *)
Definition onServerStarted (port : Z) (w : WebServer) : WebServer * list Event :=
  let w := with_inited true w in
  let evLog := [Log LInfo (MsgStarted port (QtHttpServer.serverName (_server w)))] in
  let '(w, evBonjour) :=
    if ENABLE_BONJOUR E && negb (_useSsl w) then
      match _serviceRegister w with
      | None => (with_serviceRegister (Some port) w, [Bonjour (announce port)])
      | Some registered =>
          if negb (registered =? port)
          then (with_serviceRegister (Some port) w,
                [Bonjour withdraw; Bonjour (announce port)])
          else (w, [])
      end
    else (w, []) in
  (w, evLog ++ evBonjour ++ [StateChange true]).

(** [WebServer::onServerStopped] *)
Definition onServerStopped (w : WebServer) : WebServer * list Event :=
  (w, [Log LInfo (MsgStopped (QtHttpServer.serverName (_server w)));
       StateChange false]).

(** [WebServer::onServerError] *)
Definition onServerError (msg : string) (w : WebServer) : WebServer * list Event :=
  (w, [Log LError (MsgServerError msg)]).

(** The connections made in [initServer]: each signal of the server runs
    its slot at once. *)
Definition deliver (sig : QtHttpServer.Signal) (w : WebServer) : WebServer * list Event :=
  match sig with
  | QtHttpServer.started port => onServerStarted port w
  | QtHttpServer.stopped => onServerStopped w
  | QtHttpServer.error msg => onServerError msg w
  end.

Fixpoint dispatch (sigs : list QtHttpServer.Signal) (w : WebServer)
  : WebServer * list Event :=
  match sigs with
  | [] => (w, [])
  | sig :: rest =>
      let '(w1, evs1) := deliver sig w in
      let '(w2, evs2) := dispatch rest w1 in
      (w2, evs1 ++ evs2)
  end.

(** [QTcpServer::serverPort()] of a listener bound for [port]: the port
    itself, or the port chosen by the operating system when [port] is 0. *)
Definition serverPort (port : Z) : Z :=
  if port =? 0 then anyPort E else port.

(** [WebServer::start] *)
Definition start (w : WebServer) : WebServer * list Event :=
  let '(srv, sigs) :=
    QtHttpServer.start (listen E) serverPort (_port w) (_server w) in
  let '(w', evs) := dispatch sigs (with_server srv w) in
  (w', ServerStart (_port w) :: evs).

(** [WebServer::stop] *)
Definition stop (w : WebServer) : WebServer * list Event :=
  let '(srv, sigs) := QtHttpServer.stop (_server w) in
  let '(w', evs) := dispatch sigs (with_server srv w) in
  (w', ServerStop :: evs).

(** *** [WebServer::handleSettingsUpdate], block by block *)

(** Lines 118 to 137: the document root. *)
Definition applyDocumentRoot (obj : QJsonObject) (w : WebServer)
  : WebServer * list Event :=
  let baseUrl := toString (cfg_document_root obj) (WEBSERVER_DEFAULT_PATH E) in
  let '(baseUrl, evs) :=
    if negb (String.eqb baseUrl ":/webconfig") && negb (trimmedIsEmpty baseUrl) then
      if negb (fileExists E baseUrl) || negb (fileIsDir E baseUrl)
      then (WEBSERVER_DEFAULT_PATH E, [Log LError (MsgDocumentRootInvalid baseUrl)])
      else (baseUrl, [])
    else (WEBSERVER_DEFAULT_PATH E, []) in
  (with_staticFileServing baseUrl (with_baseUrl baseUrl w),
   Log LInfo MsgApplySettings
     :: evs ++ [Log LInfo (MsgSetDocumentRoot baseUrl); SetBaseUrl baseUrl]).

(** Line 140: the port asked for, converted to [quint16]. *)
Definition newPort (obj : QJsonObject) (w : WebServer) : Z :=
  to_quint16 (if _useSsl w
              then toInt (cfg_sslPort obj) (WEBSERVER_DEFAULT_PORT w)
              else toInt (cfg_port obj) (WEBSERVER_DEFAULT_PORT w)).

(** Lines 141 to 145: a port other than [_port] is stored and the server
    is stopped. *)
Definition applyPort (obj : QJsonObject) (w : WebServer) : WebServer * list Event :=
  if negb (_port w =? newPort obj w)
  then stop (with_port (newPort obj w) w)
  else (w, []).

(** Lines 148 and 149: the probe, unless the server is listening. The
    result of [portAvailable] is dropped, the port it leaves in [_port]
    is kept. *)
Definition negotiate : Act :=
  fun w =>
    if negb (isListening w) then
      match portAvailable E (_port w) with
      | None => None
      | Some (_, p, evs) => Some (with_port p w, evs)
      end
    else Some (w, []).

(** Lines 161 to 171: the key path that is read. *)
Definition checkKeyPath (keyPath : string) : string * list Event :=
  if negb (String.eqb keyPath (WEBSERVER_DEFAULT_KEY_PATH E))
     && negb (trimmedIsEmpty keyPath) then
    if negb (fileExists E keyPath)
    then (WEBSERVER_DEFAULT_KEY_PATH E, [Log LError (MsgNoKeyFound keyPath)])
    else (keyPath, [])
  else (WEBSERVER_DEFAULT_KEY_PATH E, []).

(** Lines 174 to 184: the certificate path that is read. *)
Definition checkCrtPath (crtPath : string) : string * list Event :=
  if negb (String.eqb crtPath (WEBSERVER_DEFAULT_CRT_PATH E))
     && negb (trimmedIsEmpty crtPath) then
    if negb (fileExists E crtPath)
    then (WEBSERVER_DEFAULT_CRT_PATH E, [Log LError (MsgNoCertificateFound crtPath)])
    else (crtPath, [])
  else (WEBSERVER_DEFAULT_CRT_PATH E, []).

(** Line 195: the test of one certificate. *)
Definition certificateUsable (entry : QSslCertificate) : bool :=
  negb (cert_isNull entry)
  && (daysTo (currentDateTime E) (expiryDate entry) >? 0).

(** Lines 194 to 199: the loop over [cList]; [validList] grows at its
    end, each other entry is logged. *)
Fixpoint filterValid (crtPath : string) (cList validList : list QSslCertificate)
  : list QSslCertificate * list Event :=
  match cList with
  | [] => (validList, [])
  | entry :: rest =>
      if certificateUsable entry
      then filterValid crtPath rest (validList ++ [entry])
      else
        let '(validList, evs) := filterValid crtPath rest validList in
        (validList, Log LError (MsgCertificateInvalid crtPath) :: evs)
  end.

(** Lines 201 to 207: the certificates are set when the list is not
    empty. *)
Definition installCertificates (crtPath : string) (validList : list QSslCertificate)
    (w : WebServer) : WebServer * list Event :=
  match validList with
  | _ :: _ =>
      (with_server (QtHttpServer.setCertificates validList (_server w)) w,
       [Log LInfo MsgSetupCertificate; SetCertificates validList])
  | [] => (w, [Log LError (MsgNoValidCertificate crtPath)])
  end.

(** Lines 216 to 222: the key is set when it is not null. *)
Definition installKey (keyPath : string) (key : QSslKey) (w : WebServer)
  : WebServer * list Event :=
  if key_isNull key
  then (w, [Log LError (MsgKeyInvalid keyPath)])
  else (with_server (QtHttpServer.setPrivateKey key (_server w)) w,
        [Log LInfo MsgSetupKey; SetPrivateKey key]).

(** Lines 152 to 223. The copies [currKey] and [currCerts] of lines 157
    and 158 are not used by the code and have no counterpart here. *)
Definition applyTls (obj : QJsonObject) (w : WebServer) : WebServer * list Event :=
  if _useSsl w then
    let '(keyPath, evKeyPath) :=
      checkKeyPath (toString (cfg_keyPath obj) (WEBSERVER_DEFAULT_KEY_PATH E)) in
    let '(crtPath, evCrtPath) :=
      checkCrtPath (toString (cfg_crtPath obj) (WEBSERVER_DEFAULT_CRT_PATH E)) in
    let cList := fromDevice E crtPath in
    let '(validList, evFilter) := filterValid crtPath cList [] in
    let '(w, evCerts) := installCertificates crtPath validList w in
    let key := loadKey E keyPath (toString (cfg_keyPassPhrase obj) "") in
    let '(w, evKey) := installKey keyPath key w in
    (w, evKeyPath ++ evCrtPath ++ OpenFile crtPath :: evFilter ++ evCerts
          ++ OpenFile keyPath :: evKey)
  else (w, []).

(** Line 226 *)
Definition emitPortChanged : Act :=
  fun w => Some (w, [PortChanged (_port w)]).

(** [WebServer::handleSettingsUpdate] *)
Definition handleSettingsUpdate (type : settings_type) (config : QJsonObject) : Act :=
  fun w =>
    if settings_type_eqb type WEBSERVER then
      (total (applyDocumentRoot config) ;;
       total (applyPort config) ;;
       negotiate ;;
       total (applyTls config) ;;
       total start ;;
       emitPortChanged)%act w
    else Some (w, []).

(** The object as the constructor and the first lines of [initServer]
    leave it, before the first settings are applied: port 0, a new
    stopped server with its name, no Bonjour registration.
    [defaultPort] is the initial value of [WEBSERVER_DEFAULT_PORT] in
    [WebServer.h]. *)
Definition newWebServer (defaultPort : Z) (useSsl : bool) : WebServer :=
  let server := QtHttpServer.setServerName "HyperHDR Webserver" QtHttpServer.create in
  {| _port := 0;
     _useSsl := useSsl;
     _inited := false;
     _baseUrl := "";
     WEBSERVER_DEFAULT_PORT := if useSsl then 8092 else defaultPort;
     _server := if useSsl then QtHttpServer.setUseSecure server else server;
     _staticFileServing := "";
     _serviceRegister := None |}.

(** [WebServer::initServer] *)
Definition initServer (defaultPort : Z) (useSsl : bool) (config : QJsonObject)
  : option (WebServer * list Event) :=
  match handleSettingsUpdate WEBSERVER config (newWebServer defaultPort useSsl) with
  | None => None
  | Some (w, evs) => Some (w, Log LInfo MsgInitialize :: evs)
  end.

End WebServerCode.

(** ** Sample environments and settings *)

(** An environment with the given port answers: no file exists, no
    certificate or key can be read, Bonjour is compiled in, the host is on
    UTC, and a listener that asks for port 0 is given port 49152. *)
Definition portsEnv (listenOn : Z -> bool) : Env :=
  {| listen := listenOn;
     anyPort := 49152;
     fileExists := fun _ => false;
     fileIsDir := fun _ => false;
     fromDevice := fun _ => [];
     loadKey := fun _ _ => nullKey;
     currentDateTime := utc 0;
     ENABLE_BONJOUR := true;
     WEBSERVER_DEFAULT_PATH := ":/webconfig";
     WEBSERVER_DEFAULT_KEY_PATH := ":/key.pem";
     WEBSERVER_DEFAULT_CRT_PATH := ":/cert.pem" |}.

(** Every port can be bound. *)
Definition allFree : Env := portsEnv (fun _ => true).

(** The ports from [lo] to [hi] are taken, the others can be bound. *)
Definition busyBetween (lo hi : Z) : Env :=
  portsEnv (fun p => negb ((lo <=? p) && (p <=? hi))).

(** Settings of a plain instance that ask for port [p]. *)
Definition plainConfig (p : Z) : QJsonObject :=
  {| cfg_document_root := None; cfg_port := Some p; cfg_sslPort := None;
     cfg_keyPath := None; cfg_crtPath := None; cfg_keyPassPhrase := None |}.

(** Settings of a TLS instance that ask for port [p] and name the given
    key and certificate files. *)
Definition tlsConfig (p : Z) (key crt : option string) : QJsonObject :=
  {| cfg_document_root := None; cfg_port := None; cfg_sslPort := Some p;
     cfg_keyPath := key; cfg_crtPath := crt; cfg_keyPassPhrase := None |}.

(** An environment with every port free, the given files and the clock at
    the instant [now], on a host whose local time is [zone] milliseconds
    ahead of UTC. *)
Definition zoneFilesEnv (zone now : Z) (existing : string -> bool)
    (certsAt : string -> list QSslCertificate) (keyAt : string -> QSslKey) : Env :=
  {| listen := fun _ => true;
     anyPort := 49152;
     fileExists := existing;
     fileIsDir := fun _ => false;
     fromDevice := certsAt;
     loadKey := fun path _ => keyAt path;
     currentDateTime := {| msecsSinceEpoch := now; offsetFromUtc := zone |};
     ENABLE_BONJOUR := true;
     WEBSERVER_DEFAULT_PATH := ":/webconfig";
     WEBSERVER_DEFAULT_KEY_PATH := ":/key.pem";
     WEBSERVER_DEFAULT_CRT_PATH := ":/cert.pem" |}.

(** The same, on a host on UTC. *)
Definition filesEnv (now : Z) (existing : string -> bool)
    (certsAt : string -> list QSslCertificate) (keyAt : string -> QSslKey) : Env :=
  zoneFilesEnv 0 now existing certsAt keyAt.

Definition certificate (name : string) (expiry : Z) : QSslCertificate :=
  {| cert_isNull := false; cert_notAfter := expiry; cert_raw := name |}.

Definition key (name : string) : QSslKey :=
  {| key_isNull := false; key_raw := name |}.

(** The bundled certificate and key sit at the default paths; a custom
    certificate sits at [/etc/ssl/web.crt]; the file [/etc/ssl/web.key]
    exists and holds no key that can be parsed. The clock is at
    [now]. *)
Definition customFiles (now : Z) : Env :=
  filesEnv now
    (fun path => String.eqb path "/etc/ssl/web.crt" || String.eqb path "/etc/ssl/web.key")
    (fun path =>
       if String.eqb path ":/cert.pem" then [certificate "bundled" (3650 * msecsPerDay)]
       else if String.eqb path "/etc/ssl/web.crt"
            then [certificate "custom" (30 * msecsPerDay)]
            else [])
    (fun path => if String.eqb path ":/key.pem" then key "bundled" else nullKey).



(** A plain instance that listens on port [p]. *)
Definition listeningPlain (p : Z) : WebServer :=
  with_server
    (QtHttpServer.with_state (QtHttpServer.Listening p) (_server (newWebServer 8090 false)))
    (with_port p (newWebServer 8090 false)).

(** ** Statements of the design document *)

(** Section 4.1 and section 8: [findAvailablePort(P)] is the pair of the
    smallest free port at or above [P] and of [wasAdjusted], which is true
    exactly when that port differs from [P]. *)
Definition findAvailablePort_contract (E : Env) (P : Z) : Prop :=
  exists q evs,
    portAvailable E P = Some (negb (q =? P), q, evs)
    /\ P <= q /\ listen E q = true
    /\ (forall r, P <= r < q -> listen E r = false).

(** The paths that the TLS block reads, the certificates parsed from the
    one and the key parsed from the other (lines 154 to 190 and 210 to
    213). *)
Definition keyPathAsked (E : Env) (cfg : QJsonObject) : string :=
  toString (cfg_keyPath cfg) (WEBSERVER_DEFAULT_KEY_PATH E).

Definition crtPathAsked (E : Env) (cfg : QJsonObject) : string :=
  toString (cfg_crtPath cfg) (WEBSERVER_DEFAULT_CRT_PATH E).

Definition keyPathUsed (E : Env) (cfg : QJsonObject) : string :=
  fst (checkKeyPath E (keyPathAsked E cfg)).

Definition crtPathUsed (E : Env) (cfg : QJsonObject) : string :=
  fst (checkCrtPath E (crtPathAsked E cfg)).

Definition parsedCertificates (E : Env) (cfg : QJsonObject) : list QSslCertificate :=
  fromDevice E (crtPathUsed E cfg).

Definition parsedKey (E : Env) (cfg : QJsonObject) : QSslKey :=
  loadKey E (keyPathUsed E cfg) (toString (cfg_keyPassPhrase cfg) "").

(** Some port can be bound: the condition under which every negotiation
    returns. *)
Definition somePortFree (E : Env) : Prop :=
  exists r, in_range r /\ listen E r = true.

(** The object when the handler has gone through the document root block
    and the port block (lines 118 to 145). *)
Definition afterPortBlock (E : Env) (cfg : QJsonObject) (w : WebServer) : WebServer :=
  fst (applyPort E cfg (fst (applyDocumentRoot E cfg w))).

(** What the slot [onServerStopped] does when [start] finds the listener
    bound and stops it first. *)
Definition implicitStop (w : WebServer) : list Event :=
  if isListening w
  then [Log LInfo (MsgStopped (QtHttpServer.serverName (_server w)));
        StateChange false]
  else [].

(** The object whose listener has been bound for [_port]. *)
Definition boundAt (E : Env) (w : WebServer) : WebServer :=
  with_server
    (QtHttpServer.with_state (QtHttpServer.Listening (serverPort E (_port w))) (_server w))
    w.

(** A Bonjour registration for this very port exists. *)
Definition registeredAt (port : Z) (w : WebServer) : bool :=
  match _serviceRegister w with
  | Some registered => registered =? port
  | None => false
  end.





(** [k] refusals in a row from [P] on, the counter wrapping. *)
Definition refusedUpTo (E : Env) (P : Z) (k : nat) : Prop :=
  forall i, (i < k)%nat -> listen E (to_quint16 (P + Z.of_nat i)) = false.

(** ** Further predicates, for the properties of the last part *)

Definition isSetBaseUrl (e : Event) : bool :=
  match e with SetBaseUrl _ => true | _ => false end.

Definition isSetPrivateKey (e : Event) : bool :=
  match e with SetPrivateKey _ => true | _ => false end.

(** One attempt of the probe server. *)
Definition isProbeAttempt (e : Event) : bool :=
  match e with Probe _ _ => true | _ => false end.

(** The log lines, one predicate for each. *)
Definition isPortInUse (e : Event) : bool :=
  match e with Log LWarning (MsgPortInUse _) => true | _ => false end.

Definition isDocumentRootInvalid (e : Event) : bool :=
  match e with Log LError (MsgDocumentRootInvalid _) => true | _ => false end.

Definition isCertificateInvalid (e : Event) : bool :=
  match e with Log LError (MsgCertificateInvalid _) => true | _ => false end.

Definition isNoValidCertificate (e : Event) : bool :=
  match e with Log LError (MsgNoValidCertificate _) => true | _ => false end.

Definition isKeyInvalid (e : Event) : bool :=
  match e with Log LError (MsgKeyInvalid _) => true | _ => false end.

(** The events of the document root block, one by one. *)
Definition isDocumentRootStep (e : Event) : bool :=
  match e with
  | Log LInfo MsgApplySettings | Log LError (MsgDocumentRootInvalid _)
  | Log LInfo (MsgSetDocumentRoot _) | SetBaseUrl _ => true
  | _ => false
  end.

(** The events of the TLS block, one by one. *)
Definition isTlsStep (e : Event) : bool :=
  match e with
  | Log LError (MsgNoKeyFound _) | Log LError (MsgNoCertificateFound _)
  | Log LError (MsgCertificateInvalid _) | Log LInfo MsgSetupCertificate
  | Log LError (MsgNoValidCertificate _) | Log LError (MsgKeyInvalid _)
  | Log LInfo MsgSetupKey
  | OpenFile _ | SetCertificates _ | SetPrivateKey _ => true
  | _ => false
  end.

(** The document root that the settings ask for (line 121). *)
Definition documentRootAsked (E : Env) (cfg : QJsonObject) : string :=
  toString (cfg_document_root cfg) (WEBSERVER_DEFAULT_PATH E).

(** A document root of its own (neither ":/webconfig" nor blank) that is
    not an existing directory. *)
Definition documentRootInvalid (E : Env) (root : string) : bool :=
  negb (String.eqb root ":/webconfig") && negb (trimmedIsEmpty root)
  && (negb (fileExists E root) || negb (fileIsDir E root)).

(** A document root of its own that is an existing directory. *)
Definition documentRootValid (E : Env) (root : string) : bool :=
  negb (String.eqb root ":/webconfig") && negb (trimmedIsEmpty root)
  && fileExists E root && fileIsDir E root.

(** The document root that the object holds and the one that it has
    forwarded to the static file server. *)
Definition documentRoots (w : WebServer) : string * string :=
  (_baseUrl w, _staticFileServing w).

(** The document root that a run settles on. *)
Definition documentRootUsed (E : Env) (cfg : QJsonObject) : string :=
  if documentRootValid E (documentRootAsked E cfg)
  then documentRootAsked E cfg else WEBSERVER_DEFAULT_PATH E.

(** The reports of the two path checks of the TLS block. *)
Definition isPathReport (e : Event) : bool :=
  match e with
  | Log LError (MsgNoKeyFound _) | Log LError (MsgNoCertificateFound _) => true
  | _ => false
  end.

(** An environment with every port free in which [/srv/www] is a
    directory and [/srv/index.html] a file. *)
Definition siteEnv : Env :=
  {| listen := fun _ => true;
     anyPort := 49152;
     fileExists :=
       fun path => String.eqb path "/srv/www" || String.eqb path "/srv/index.html";
     fileIsDir := fun path => String.eqb path "/srv/www";
     fromDevice := fun _ => [];
     loadKey := fun _ _ => nullKey;
     currentDateTime := utc 0;
     ENABLE_BONJOUR := true;
     WEBSERVER_DEFAULT_PATH := ":/webconfig";
     WEBSERVER_DEFAULT_KEY_PATH := ":/key.pem";
     WEBSERVER_DEFAULT_CRT_PATH := ":/cert.pem" |}.

(** Settings of a plain instance with a document root and a port. *)
Definition siteConfig (root : string) (p : Z) : QJsonObject :=
  {| cfg_document_root := Some root; cfg_port := Some p; cfg_sslPort := None;
     cfg_keyPath := None; cfg_crtPath := None; cfg_keyPassPhrase := None |}.

(** A sequence of calls of [handleSettingsUpdate], one after the other, on
    the object that the one before has left. *)
Fixpoint applyAll (E : Env) (updates : list (settings_type * QJsonObject))
    (w : WebServer) : option (WebServer * list Event) :=
  match updates with
  | [] => Some (w, [])
  | (type, config) :: rest =>
      match handleSettingsUpdate E type config w with
      | None => None
      | Some (w1, evs1) =>
          match applyAll E rest w1 with
          | None => None
          | Some (w2, evs2) => Some (w2, evs1 ++ evs2)
          end
      end
  end.

(** On day 100, the certificate file at the default path holds a
    certificate that expires on day 200, one that expired on day 50 and a
    null one; no key can be parsed. *)
Definition mixedFiles : Env :=
  filesEnv (100 * msecsPerDay) (fun _ => false)
    (fun path =>
       if String.eqb path ":/cert.pem"
       then [certificate "fresh" (200 * msecsPerDay);
             certificate "old" (50 * msecsPerDay);
             {| cert_isNull := true; cert_notAfter := 0; cert_raw := "" |}]
       else [])
    (fun _ => nullKey).

(** A call of the service announcer. *)
Definition isBonjour (e : Event) : bool :=
  match e with Bonjour _ => true | _ => false end.

(** The settings with other values under the keys [port] and [sslPort]. *)
Definition withPorts (cfg : QJsonObject) (p s : option Z) : QJsonObject :=
  {| cfg_document_root := cfg_document_root cfg; cfg_port := p; cfg_sslPort := s;
     cfg_keyPath := cfg_keyPath cfg; cfg_crtPath := cfg_crtPath cfg;
     cfg_keyPassPhrase := cfg_keyPassPhrase cfg |}.

(** The port that [initServer] asks for: the one of the settings, or 8092
    on a TLS instance and the default of the header otherwise. *)
Definition initialPort (defaultPort : Z) (useSsl : bool) (cfg : QJsonObject) : Z :=
  to_quint16 (if useSsl then toInt (cfg_sslPort cfg) 8092
              else toInt (cfg_port cfg) defaultPort).

(** * Properties *)

(** ** Arithmetic of [quint16] *)

Lemma to_quint16_range z : in_range (to_quint16 z).
Proof. unfold in_range, to_quint16, modulus. apply Z.mod_pos_bound. lia. Qed.

Lemma to_quint16_small z : in_range z -> to_quint16 z = z.
Proof. unfold in_range, to_quint16, modulus. intros H. apply Z.mod_small. exact H. Qed.

Lemma incr_to_quint16 z : incr (to_quint16 z) = to_quint16 (z + 1).
Proof. unfold incr, to_quint16, modulus. apply Zplus_mod_idemp_l. Qed.

Lemma incr_range p : in_range (incr p).
Proof. apply to_quint16_range. Qed.

(** ** Counting events *)

Lemma count_app f tr1 tr2 : count f (tr1 ++ tr2) = (count f tr1 + count f tr2)%nat.
Proof. unfold count. rewrite filter_app, length_app. reflexivity. Qed.

Lemma count_cons f e tr :
  count f (e :: tr) = ((if f e then 1 else 0) + count f tr)%nat.
Proof. unfold count. simpl. destruct (f e); reflexivity. Qed.

(** Case analysis on one event, for implications between the boolean
    predicates on events. *)
Ltac event_cases :=
  let e := fresh "e" in
  intros e; destruct e;
  try (simpl; congruence);
  repeat match goal with
         | x : LogLevel |- _ => destruct x
         | x : LogMsg |- _ => destruct x
         | x : BonjourCall |- _ => destruct x
         | x : bool |- _ => destruct x
         end;
  simpl; congruence.

Lemma filter_disjoint (f g : Event -> bool) tr :
  (forall e, g e = true -> f e = false) ->
  forallb g tr = true -> filter f tr = [].
Proof.
  intros Hfg. induction tr as [|e tr IH]; intros Hall; [reflexivity|].
  simpl in Hall. apply andb_prop in Hall. destruct Hall as [He Htr].
  simpl. rewrite (Hfg e He). apply IH, Htr.
Qed.

(** Events that all satisfy [g] contain none that satisfies an [f]
    disjoint from [g]. *)
Lemma count_disjoint (f g : Event -> bool) tr :
  (forall e, g e = true -> f e = false) ->
  forallb g tr = true -> count f tr = O.
Proof.
  intros Hfg. induction tr as [|e tr IH]; intros Hall; [reflexivity|].
  simpl in Hall. apply andb_prop in Hall. destruct Hall as [He Htr].
  rewrite count_cons, (Hfg e He), (IH Htr). reflexivity.
Qed.

(** ** The probe loop *)

Section ProbeFacts.

Variable E : Env.

Lemma refusedUpTo_shift P k :
  refusedUpTo E P (S k) -> refusedUpTo E (P + 1) k.
Proof.
  intros H i Hi. specialize (H (S i)).
  replace (P + 1 + Z.of_nat i) with (P + Z.of_nat (S i)) by lia.
  apply H. lia.
Qed.

Lemma refusedUpTo_head P k :
  refusedUpTo E P (S k) -> listen E (to_quint16 P) = false.
Proof.
  intros H. specialize (H O). rewrite Z.add_0_r in H. apply H. lia.
Qed.

(** The loop stops at the first accepted port, if the fuel reaches it. *)
Lemma probe_first_accepted :
  forall k fuel P,
    (k < fuel)%nat ->
    refusedUpTo E P k ->
    listen E (to_quint16 (P + Z.of_nat k)) = true ->
    exists evs,
      probe E fuel (to_quint16 P) = Some (to_quint16 (P + Z.of_nat k), evs).
Proof.
  induction k as [|k IH]; intros fuel P Hfuel Href Hfree.
  - destruct fuel as [|fuel]; [lia|].
    rewrite Z.add_0_r in Hfree. simpl. rewrite Hfree, Z.add_0_r. eauto.
  - destruct fuel as [|fuel]; [lia|].
    simpl. rewrite (refusedUpTo_head _ _ Href), incr_to_quint16.
    destruct (IH fuel (P + 1)) as [evs Hp].
    + lia.
    + apply refusedUpTo_shift; exact Href.
    + replace (P + 1 + Z.of_nat k) with (P + Z.of_nat (S k)) by lia. exact Hfree.
    + rewrite Hp. replace (P + 1 + Z.of_nat k) with (P + Z.of_nat (S k)) by lia.
      eauto.
Qed.

(** What a returning loop has seen. *)
Lemma probe_returns :
  forall fuel P q evs,
    probe E fuel (to_quint16 P) = Some (q, evs) ->
    exists k, (k < fuel)%nat /\ refusedUpTo E P k /\
              q = to_quint16 (P + Z.of_nat k) /\ listen E q = true.
Proof.
  induction fuel as [|fuel IH]; intros P q evs Hp; [discriminate|].
  simpl in Hp. destruct (listen E (to_quint16 P)) eqn:Hl.
  - inversion Hp; subst. exists O. rewrite Z.add_0_r.
    repeat split; [lia| |exact Hl]. intros i Hi; lia.
  - rewrite incr_to_quint16 in Hp.
    destruct (probe E fuel (to_quint16 (P + 1))) as [[p' evs']|] eqn:Hrec; [|discriminate].
    inversion Hp; subst. destruct (IH _ _ _ Hrec) as [k [Hk [Href [Hq Hfree]]]].
    exists (S k). replace (P + Z.of_nat (S k)) with (P + 1 + Z.of_nat k) by lia.
    repeat split; [lia| |exact Hq|exact Hfree].
    intros i Hi. destruct i as [|i].
    + rewrite Z.add_0_r. exact Hl.
    + replace (P + Z.of_nat (S i)) with (P + 1 + Z.of_nat i) by lia. apply Href. lia.
Qed.

(** More fuel does not change a result. *)
Lemma probe_fuel_mono :
  forall fuel fuel' p r,
    (fuel <= fuel')%nat -> probe E fuel p = Some r -> probe E fuel' p = Some r.
Proof.
  induction fuel as [|fuel IH]; intros fuel' p r Hle Hp; [discriminate|].
  destruct fuel' as [|fuel']; [lia|]. simpl in *.
  destruct (listen E p); [exact Hp|].
  destruct (probe E fuel (incr p)) as [[q evs]|] eqn:Hrec; [|discriminate].
  rewrite (IH fuel' _ _ ltac:(lia) Hrec). exact Hp.
Qed.

(** With every port refused the loop never returns, whatever the fuel. *)
Lemma probe_exhausted :
  (forall p, in_range p -> listen E p = false) ->
  forall fuel p, in_range p -> probe E fuel p = None.
Proof.
  intros Hall. induction fuel as [|fuel IH]; intros p Hp; [reflexivity|].
  simpl. rewrite (Hall p Hp), (IH (incr p) (incr_range p)). reflexivity.
Qed.

(** With one accepted port anywhere, [modulus] attempts are enough. *)
Lemma probe_total :
  forall P r,
    in_range P -> in_range r -> listen E r = true ->
    exists q evs, probe E (Z.to_nat modulus) P = Some (q, evs).
Proof.
  intros P r HP Hr Hfree.
  assert (Hgen : forall n fuel Q,
            (n < fuel)%nat -> listen E (to_quint16 (Q + Z.of_nat n)) = true ->
            exists q evs, probe E fuel (to_quint16 Q) = Some (q, evs)).
  { induction n as [|n IH]; intros fuel Q Hn Hf.
    - destruct fuel as [|fuel]; [lia|]. rewrite Z.add_0_r in Hf.
      simpl. rewrite Hf. eauto.
    - destruct fuel as [|fuel]; [lia|]. simpl.
      destruct (listen E (to_quint16 Q)); [eauto|].
      rewrite incr_to_quint16.
      destruct (IH fuel (Q + 1)) as [q [evs Hq]]; [lia| |].
      + replace (Q + 1 + Z.of_nat n) with (Q + Z.of_nat (S n)) by lia. exact Hf.
      + rewrite Hq. eauto. }
  unfold in_range, modulus in *.
  set (n := Z.to_nat ((r - P) mod 65536)).
  assert (Hn : 0 <= (r - P) mod 65536 < 65536) by (apply Z.mod_pos_bound; lia).
  destruct (Hgen n (Z.to_nat 65536) P) as [q [evs Hq]].
  - subst n. lia.
  - subst n. rewrite Z2Nat.id by lia. unfold to_quint16, modulus.
    rewrite Zplus_mod_idemp_r. replace (P + (r - P)) with r by lia.
    rewrite Z.mod_small by lia. exact Hfree.
  - rewrite to_quint16_small in Hq by (unfold in_range, modulus; lia). eauto.
Qed.

Lemma probe_events :
  forall fuel p q evs,
    probe E fuel p = Some (q, evs) -> forallb isProbeStep evs = true.
Proof.
  induction fuel as [|fuel IH]; intros p q evs Hp; [discriminate|].
  simpl in Hp. destruct (listen E p).
  - inversion Hp; subst. reflexivity.
  - destruct (probe E fuel (incr p)) as [[q' evs']|] eqn:Hrec; [|discriminate].
    inversion Hp; subst. simpl. eapply IH; eassumption.
Qed.

Lemma forallb_weaken (f g : Event -> bool) tr :
  (forall e, f e = true -> g e = true) -> forallb f tr = true -> forallb g tr = true.
Proof.
  intros Hfg. rewrite !forallb_forall. intros H e He. apply Hfg, H, He.
Qed.

Lemma portAvailable_events P b q evs :
  portAvailable E P = Some (b, q, evs) ->
  forallb isNegotiation evs = true
  /\ count isPortInstead evs = (if q =? P then 0%nat else 1%nat)
  /\ b = (q =? P).
Proof.
  unfold portAvailable. cbv zeta.
  destruct (probe E (Z.to_nat modulus) P) as [[q' evs']|] eqn:Hp; [|discriminate].
  pose proof (probe_events _ _ _ _ Hp) as Hev.
  assert (Hneg : forallb isNegotiation evs' = true).
  { revert Hev. apply forallb_weaken. event_cases. }
  assert (Hcnt : count isPortInstead evs' = O).
  { apply (count_disjoint _ isProbeStep); [|exact Hev].
    event_cases. }
  destruct (q' =? P) eqn:Hq; simpl; intros H; inversion H; subst; rewrite Hq.
  - rewrite forallb_app, Hneg, count_app, Hcnt. auto.
  - rewrite forallb_app, Hneg, count_app, Hcnt. auto.
Qed.

(** When a port at or above [P] is free, [portAvailable] returns the
    smallest such port. *)
Lemma portAvailable_smallest P q :
  in_range P -> P <= q < modulus ->
  (forall r, P <= r < q -> listen E r = false) ->
  listen E q = true ->
  exists evs, portAvailable E P = Some (q =? P, q, evs).
Proof.
  intros HP Hq Hbusy Hfree. unfold in_range, modulus in *.
  destruct (probe_first_accepted (Z.to_nat (q - P)) (Z.to_nat modulus) P)
    as [evs Hp].
  - unfold modulus. lia.
  - intros i Hi. rewrite to_quint16_small by (unfold in_range, modulus; lia).
    apply Hbusy. lia.
  - rewrite Z2Nat.id by lia. replace (P + (q - P)) with q by lia.
    rewrite to_quint16_small by (unfold in_range, modulus; lia). exact Hfree.
  - rewrite Z2Nat.id in Hp by lia. replace (P + (q - P)) with q in Hp by lia.
    rewrite !to_quint16_small in Hp by (unfold in_range, modulus; lia).
    unfold portAvailable. cbv zeta. rewrite Hp.
    destruct (q =? P); simpl; eauto.
Qed.

(** When a port at or above [P] is free, the port returned is one of
    them; the counter has not wrapped. *)
Lemma portAvailable_no_wrap P r :
  in_range P -> P <= r < modulus -> listen E r = true ->
  exists b q evs, portAvailable E P = Some (b, q, evs) /\ P <= q <= r.
Proof.
  intros HP Hr Hfree. unfold in_range, modulus in *.
  destruct (probe_total P r) as [q [evs Hp]];
    [unfold in_range, modulus; lia..|exact Hfree|].
  pose proof Hp as Hp'.
  rewrite <- (to_quint16_small P) in Hp' by (unfold in_range, modulus; lia).
  destruct (probe_returns _ _ _ _ Hp') as [k [Hk [Href [Hq Hlq]]]].
  assert (Hle : P + Z.of_nat k <= r).
  { destruct (Z_le_gt_dec (P + Z.of_nat k) r) as [Hle|Hgt]; [exact Hle|].
    specialize (Href (Z.to_nat (r - P)) ltac:(lia)).
    rewrite Z2Nat.id in Href by lia. replace (P + (r - P)) with r in Href by lia.
    rewrite to_quint16_small in Href by (unfold in_range, modulus; lia).
    congruence. }
  rewrite to_quint16_small in Hq by (unfold in_range, modulus; lia).
  unfold portAvailable. cbv zeta. rewrite Hp.
  destruct (q =? P); simpl; do 3 eexists; (split; [reflexivity|lia]).
Qed.

(** When no port at or above [P] is free, a returning probe has wrapped
    and ends below [P]. *)
Lemma portAvailable_wraps P b q evs :
  in_range P ->
  (forall r, P <= r < modulus -> listen E r = false) ->
  portAvailable E P = Some (b, q, evs) ->
  0 <= q < P.
Proof.
  intros HP Hbusy. unfold portAvailable. cbv zeta.
  destruct (probe E (Z.to_nat modulus) P) as [[q' evs']|] eqn:Hp; [|discriminate].
  rewrite <- (to_quint16_small P) in Hp by exact HP.
  destruct (probe_returns _ _ _ _ Hp) as [k [Hk [Href [Hq Hlq]]]].
  pose proof (to_quint16_range (P + Z.of_nat k)) as Hr. rewrite <- Hq in Hr.
  intros H. assert (q = q') by (destruct (negb (q' =? P)); inversion H; reflexivity).
  subst q. unfold in_range, modulus in *.
  destruct (Z_lt_ge_dec q' P) as [Hlt|Hge]; [lia|].
  rewrite (Hbusy q') in Hlq by lia. discriminate.
Qed.

End ProbeFacts.

(** ** The probe, in full *)

Section ProbeTrace.

Variable E : Env.

(** A returning loop: the refusals it met, the port it ends on, and its
    trace. *)
Lemma probe_trace :
  forall fuel P q evs,
    probe E fuel (to_quint16 P) = Some (q, evs) ->
    exists k, (k < fuel)%nat /\ refusedUpTo E P k
              /\ q = to_quint16 (P + Z.of_nat k) /\ listen E q = true
              /\ count isPortInUse evs = k
              /\ count isProbeAttempt evs = S k.
Proof.
  induction fuel as [|fuel IH]; intros P q evs Hp; [discriminate|].
  simpl in Hp. destruct (listen E (to_quint16 P)) eqn:Hl.
  - inversion Hp; subst. exists O. rewrite Z.add_0_r.
    repeat split; try reflexivity; [lia| |exact Hl]. intros i Hi; lia.
  - rewrite incr_to_quint16 in Hp.
    destruct (probe E fuel (to_quint16 (P + 1))) as [[p' evs']|] eqn:Hrec; [|discriminate].
    inversion Hp; subst.
    destruct (IH _ _ _ Hrec) as [k [Hk [Href [Hq [Hfree [Hc1 Hc2]]]]]].
    exists (S k). replace (P + Z.of_nat (S k)) with (P + 1 + Z.of_nat k) by lia.
    rewrite !count_cons. cbn [isPortInUse isProbeAttempt]. rewrite Hc1, Hc2.
    repeat split; try reflexivity; [lia| |exact Hq|exact Hfree].
    intros i Hi. destruct i as [|i].
    + rewrite Z.add_0_r. exact Hl.
    + replace (P + Z.of_nat (S i)) with (P + 1 + Z.of_nat i) by lia. apply Href. lia.
Qed.

(** A returning probe: how far it went. *)
Lemma portAvailable_steps P b q evs :
  in_range P ->
  portAvailable E P = Some (b, q, evs) ->
  exists k : nat,
    Z.of_nat k < modulus /\ q = to_quint16 (P + Z.of_nat k)
    /\ refusedUpTo E P k /\ listen E q = true
    /\ count isPortInUse evs = k.
Proof.
  intros HP. unfold portAvailable. cbv zeta.
  destruct (probe E (Z.to_nat modulus) P) as [[q' evs']|] eqn:Hp; [|discriminate].
  rewrite <- (to_quint16_small P HP) in Hp.
  destruct (probe_trace _ _ _ _ Hp) as [k [Hk [Href [Hq [Hfree [Hc1 _]]]]]].
  intros Hpa. exists k.
  assert (Hkm : Z.of_nat k < modulus) by (unfold modulus in Hk |- *; lia).
  assert (Hqq : q' = q) by (destruct (negb (q' =? P)); inversion Hpa; reflexivity).
  assert (Hcount : count isPortInUse evs = k).
  { destruct (negb (q' =? P)); inversion Hpa;
      rewrite count_app, Hc1; unfold count; simpl; lia. }
  rewrite <- Hqq. repeat split; assumption.
Qed.

End ProbeTrace.

(** ** Port negotiation *)

(** C1, as amended. Whenever some port from [P] up to 65535 is free,
    [portAvailable] returns and leaves in its reference parameter the
    smallest free port [q] at or above [P]. Its result is [true] exactly
    when [q = P]: it says that the requested port was available, which is
    the negation of [wasAdjusted]. The warning that another port is used
    instead is logged exactly when [q] differs from [P]. So a free [P]
    gives [(P, true)], and [P .. P+k] taken with [P+k+1] free gives
    [(P+k+1, false)]. *)
Theorem portAvailable_first_free (E : Env) (P q : Z) :
  in_range P -> P <= q < modulus ->
  (forall r, P <= r < q -> listen E r = false) ->
  listen E q = true ->
  exists evs,
    portAvailable E P = Some (q =? P, q, evs)
    /\ count isPortInstead evs = (if q =? P then 0%nat else 1%nat).
Proof.
  intros HP Hq Hbusy Hfree.
  destruct (portAvailable_smallest E P q HP Hq Hbusy Hfree) as [evs Hpa].
  exists evs. split; [exact Hpa|].
  apply (portAvailable_events E P _ _ _ Hpa).
Qed.

(** Ports 80 to 82 taken, 83 free: the probe ends on 83 and answers
    [false]. *)
Lemma portAvailable_first_free_witness :
  exists evs,
    portAvailable (busyBetween 80 82) 80 = Some (83 =? 80, 83, evs)
    /\ count isPortInstead evs = (if 83 =? 80 then 0%nat else 1%nat).
Proof.
  apply (portAvailable_first_free (busyBetween 80 82) 80 83).
  - unfold in_range, modulus. lia.
  - unfold modulus. lia.
  - intros r Hr. simpl.
    replace (80 <=? r) with true by (symmetry; apply Z.leb_le; lia).
    replace (r <=? 82) with true by (symmetry; apply Z.leb_le; lia).
    reflexivity.
  - reflexivity.
Defined.

(** C1, as stated, fails twice. With port 8080 free the code answers
    [(8080, true)], not [(8080, false)]. With port 65535 taken the counter
    wraps and the probe ends on port 0, which is not at or above 65535. *)
Lemma findAvailablePort_contract_fails :
  portAvailable allFree 8080 = Some (true, 8080, [Probe 8080 true; ProbeClose])
  /\ ~ findAvailablePort_contract allFree 8080
  /\ portAvailable (busyBetween 65535 65535) 65535
     = Some (false, 0,
             [Probe 65535 false; Log LWarning (MsgPortInUse 65535); Probe 0 true;
              ProbeClose; Log LWarning (MsgPortInstead 65535 0)])
  /\ ~ findAvailablePort_contract (busyBetween 65535 65535) 65535.
Proof.
  assert (H1 : portAvailable allFree 8080
               = Some (true, 8080, [Probe 8080 true; ProbeClose]))
    by (vm_compute; reflexivity).
  assert (H2 : portAvailable (busyBetween 65535 65535) 65535
               = Some (false, 0,
                       [Probe 65535 false; Log LWarning (MsgPortInUse 65535);
                        Probe 0 true; ProbeClose;
                        Log LWarning (MsgPortInstead 65535 0)]))
    by (vm_compute; reflexivity).
  repeat split; try assumption.
  - intros [q [evs [Hpa _]]]. rewrite H1 in Hpa. inversion Hpa as [[Hb Hq Hevs]].
    subst q. discriminate Hb.
  - intros [q [evs [Hpa [Hle _]]]]. rewrite H2 in Hpa. inversion Hpa as [[Hb Hq Hevs]].
    subst q. lia.
Qed.

(** C7, as amended. Whenever some port from [P] up to 65535 is free, the
    negotiation returns and the effective port is at or above the requested
    one. (When none is, the counter wraps to 0 and a returning negotiation
    ends below [P]: [portAvailable_wraps].) *)
Theorem effectivePort_ge_requested (E : Env) (P : Z) :
  in_range P ->
  (exists r, P <= r < modulus /\ listen E r = true) ->
  exists b q evs, portAvailable E P = Some (b, q, evs) /\ P <= q < modulus.
Proof.
  intros HP [r [Hr Hfree]].
  destruct (portAvailable_no_wrap E P r HP Hr Hfree) as [b [q [evs [Hpa Hq]]]].
  exists b, q, evs. split; [exact Hpa|]. lia.
Qed.

Lemma effectivePort_ge_requested_witness :
  exists b q evs,
    portAvailable (busyBetween 8090 8091) 8090 = Some (b, q, evs)
    /\ 8090 <= q < modulus.
Proof.
  apply (effectivePort_ge_requested (busyBetween 8090 8091) 8090).
  - unfold in_range, modulus. lia.
  - exists 8092. split; [unfold modulus; lia|reflexivity].
Defined.

(** C7, as stated, fails: with ports 65534 and 65535 taken a request for
    65534 returns, with effective port 0. *)
Lemma effectivePort_below_requested :
  portAvailable (busyBetween 65534 65535) 65534
  = Some (false, 0,
          [Probe 65534 false; Log LWarning (MsgPortInUse 65534);
           Probe 65535 false; Log LWarning (MsgPortInUse 65535);
           Probe 0 true; ProbeClose; Log LWarning (MsgPortInstead 65534 0)])
  /\ ~ (0 >= 65534).
Proof.
  split; [vm_compute; reflexivity|lia].
Qed.

(** ** The blocks of the settings handler *)

Section HandlerFacts.

Variable E : Env.

Lemma with_server_same w : with_server (_server w) w = w.
Proof. destruct w; reflexivity. Qed.

(** *** [WebServer::stop] *)

Lemma stop_listening w :
  isListening w = true ->
  stop E w =
    (with_server (QtHttpServer.with_state QtHttpServer.Stopped (_server w)) w,
     [ServerStop; Log LInfo (MsgStopped (QtHttpServer.serverName (_server w)));
      StateChange false]).
Proof.
  unfold isListening, stop, QtHttpServer.stop. intros H. rewrite H. reflexivity.
Qed.

Lemma stop_not_listening w :
  isListening w = false -> stop E w = (w, [ServerStop]).
Proof.
  unfold isListening, stop, QtHttpServer.stop. intros H. rewrite H. simpl.
  rewrite with_server_same. reflexivity.
Qed.

Lemma stop_events w : forallb isStopEvent (snd (stop E w)) = true.
Proof.
  destruct (isListening w) eqn:H.
  - rewrite (stop_listening w H). reflexivity.
  - rewrite (stop_not_listening w H). reflexivity.
Qed.

Lemma stop_stopped w : isListening (fst (stop E w)) = false.
Proof.
  destruct (isListening w) eqn:H.
  - rewrite (stop_listening w H). reflexivity.
  - rewrite (stop_not_listening w H). exact H.
Qed.

Lemma stop_frame w :
  let w' := fst (stop E w) in
  _port w' = _port w /\ _useSsl w' = _useSsl w
  /\ WEBSERVER_DEFAULT_PORT w' = WEBSERVER_DEFAULT_PORT w
  /\ _serviceRegister w' = _serviceRegister w
  /\ QtHttpServer.certificates (_server w') = QtHttpServer.certificates (_server w)
  /\ QtHttpServer.privateKey (_server w') = QtHttpServer.privateKey (_server w).
Proof.
  destruct (isListening w) eqn:H.
  - rewrite (stop_listening w H). simpl. auto 6.
  - rewrite (stop_not_listening w H). simpl. auto 6.
Qed.

(** *** [WebServer::start] *)

Lemma start_bound w :
  listen E (_port w) = true ->
  start E w =
    (fst (onServerStarted E (serverPort E (_port w)) (boundAt E w)),
     ServerStart (_port w)
       :: implicitStop w ++ snd (onServerStarted E (serverPort E (_port w)) (boundAt E w))).
Proof.
  unfold start, QtHttpServer.start, QtHttpServer.stop, implicitStop, boundAt, isListening.
  intros Hl.
  destruct (QtHttpServer.isListening (_server w)); rewrite Hl; cbn [app dispatch deliver].
  - unfold onServerStopped.
    destruct (onServerStarted E (serverPort E (_port w)) _) as [w1 evs1]. simpl.
    rewrite app_nil_r. reflexivity.
  - destruct (onServerStarted E (serverPort E (_port w)) _) as [w1 evs1]. simpl.
    rewrite app_nil_r. reflexivity.
Qed.

Lemma start_refused w :
  listen E (_port w) = false ->
  start E w =
    (with_server (QtHttpServer.with_state (QtHttpServer.Failed "bind failed") (_server w)) w,
     ServerStart (_port w) :: implicitStop w ++ [Log LError (MsgServerError "bind failed")]).
Proof.
  unfold start, QtHttpServer.start, QtHttpServer.stop, implicitStop, isListening.
  intros Hl.
  destruct (QtHttpServer.isListening (_server w)); rewrite Hl; reflexivity.
Qed.

Lemma implicitStop_events w : forallb isStartEvent (implicitStop w) = true.
Proof. unfold implicitStop. destruct (isListening w); reflexivity. Qed.


Lemma onServerStarted_events port w :
  forallb isStartEvent (snd (onServerStarted E port w)) = true
  /\ count (isStateChange true) (snd (onServerStarted E port w)) = 1%nat.
Proof.
  unfold onServerStarted.
  destruct (ENABLE_BONJOUR E && negb (_useSsl (with_inited true w))); [|split; reflexivity].
  destruct (_serviceRegister (with_inited true w)) as [registered|]; [|split; reflexivity].
  destruct (negb (registered =? port)); split; reflexivity.
Qed.

Lemma onServerStarted_frame port w :
  let w' := fst (onServerStarted E port w) in
  _port w' = _port w /\ _useSsl w' = _useSsl w
  /\ WEBSERVER_DEFAULT_PORT w' = WEBSERVER_DEFAULT_PORT w
  /\ _server w' = _server w.
Proof.
  unfold onServerStarted.
  destruct (ENABLE_BONJOUR E && negb (_useSsl (with_inited true w))); [|simpl; auto].
  destruct (_serviceRegister (with_inited true w)) as [registered|]; [|simpl; auto].
  destruct (negb (registered =? port)); simpl; auto.
Qed.

Lemma start_events w : forallb isStartEvent (snd (start E w)) = true.
Proof.
  destruct (listen E (_port w)) eqn:Hl.
  - rewrite (start_bound w Hl). cbn [snd forallb isStartEvent andb].
    rewrite forallb_app, implicitStop_events. apply onServerStarted_events.
  - rewrite (start_refused w Hl). cbn [snd forallb isStartEvent andb].
    rewrite forallb_app, implicitStop_events. reflexivity.
Qed.

Lemma start_frame w :
  let w' := fst (start E w) in
  _port w' = _port w /\ _useSsl w' = _useSsl w
  /\ WEBSERVER_DEFAULT_PORT w' = WEBSERVER_DEFAULT_PORT w
  /\ QtHttpServer.certificates (_server w') = QtHttpServer.certificates (_server w)
  /\ QtHttpServer.privateKey (_server w') = QtHttpServer.privateKey (_server w).
Proof.
  destruct (listen E (_port w)) eqn:Hl.
  - rewrite (start_bound w Hl). cbv zeta. cbn [fst].
    destruct (onServerStarted_frame (serverPort E (_port w)) (boundAt E w))
      as [Hp [Hu [Hd Hs]]].
    rewrite Hp, Hu, Hd, Hs. simpl. auto.
  - rewrite (start_refused w Hl). simpl. auto.
Qed.

(** *** The document root block *)

Lemma applyDocumentRoot_events cfg w :
  forallb isDocumentRootEvent (snd (applyDocumentRoot E cfg w)) = true.
Proof.
  unfold applyDocumentRoot.
  destruct (negb _ && negb _); [destruct (negb _ || negb _)|]; reflexivity.
Qed.

Lemma applyDocumentRoot_frame cfg w :
  let w' := fst (applyDocumentRoot E cfg w) in
  _port w' = _port w /\ _useSsl w' = _useSsl w
  /\ WEBSERVER_DEFAULT_PORT w' = WEBSERVER_DEFAULT_PORT w
  /\ _server w' = _server w
  /\ _serviceRegister w' = _serviceRegister w.
Proof.
  unfold applyDocumentRoot.
  destruct (negb _ && negb _); [destruct (negb _ || negb _)|]; simpl; auto.
Qed.

(** *** The port block *)

Lemma newPort_range cfg w : in_range (newPort cfg w).
Proof. apply to_quint16_range. Qed.

Lemma newPort_frame cfg w w' :
  _useSsl w' = _useSsl w -> WEBSERVER_DEFAULT_PORT w' = WEBSERVER_DEFAULT_PORT w ->
  newPort cfg w' = newPort cfg w.
Proof. unfold newPort. intros -> ->. reflexivity. Qed.

Lemma applyPort_same cfg w :
  _port w = newPort cfg w -> applyPort E cfg w = (w, []).
Proof. unfold applyPort. intros H. rewrite H, Z.eqb_refl. reflexivity. Qed.

Lemma applyPort_changed cfg w :
  _port w <> newPort cfg w ->
  applyPort E cfg w = stop E (with_port (newPort cfg w) w).
Proof.
  unfold applyPort. intros H. apply Z.eqb_neq in H. rewrite H. reflexivity.
Qed.

Lemma applyPort_events cfg w :
  forallb isStopEvent (snd (applyPort E cfg w)) = true.
Proof.
  unfold applyPort. destruct (negb _); [apply stop_events|reflexivity].
Qed.

Lemma applyPort_frame cfg w :
  let w' := fst (applyPort E cfg w) in
  _port w' = newPort cfg w /\ _useSsl w' = _useSsl w
  /\ WEBSERVER_DEFAULT_PORT w' = WEBSERVER_DEFAULT_PORT w
  /\ _serviceRegister w' = _serviceRegister w
  /\ QtHttpServer.certificates (_server w') = QtHttpServer.certificates (_server w)
  /\ QtHttpServer.privateKey (_server w') = QtHttpServer.privateKey (_server w).
Proof.
  destruct (Z.eq_dec (_port w) (newPort cfg w)) as [Heq|Hne].
  - rewrite (applyPort_same cfg w Heq). simpl. auto 6.
  - rewrite (applyPort_changed cfg w Hne).
    destruct (stop_frame (with_port (newPort cfg w) w)) as [Hp [Hu [Hd [Hr [Hc Hk]]]]].
    cbv zeta. rewrite Hp, Hu, Hd, Hr, Hc, Hk. simpl. auto 6.
Qed.

(** *** The negotiation block *)

Lemma negotiate_listening w :
  isListening w = true -> negotiate E w = Some (w, []).
Proof. unfold negotiate. intros H. rewrite H. reflexivity. Qed.

Lemma negotiate_not_listening w :
  isListening w = false ->
  negotiate E w =
    match portAvailable E (_port w) with
    | None => None
    | Some (_, p, evs) => Some (with_port p w, evs)
    end.
Proof. unfold negotiate. intros H. rewrite H. reflexivity. Qed.

Lemma negotiate_events w w' evs :
  negotiate E w = Some (w', evs) -> forallb isNegotiation evs = true.
Proof.
  unfold negotiate. destruct (negb (isListening w)).
  - destruct (portAvailable E (_port w)) as [[[b q] evs']|] eqn:Hpa; [|discriminate].
    intros H; inversion H; subst. apply (portAvailable_events E _ _ _ _ Hpa).
  - intros H; inversion H; subst. reflexivity.
Qed.

Lemma negotiate_frame w w' evs :
  negotiate E w = Some (w', evs) ->
  _useSsl w' = _useSsl w
  /\ WEBSERVER_DEFAULT_PORT w' = WEBSERVER_DEFAULT_PORT w
  /\ _server w' = _server w
  /\ _serviceRegister w' = _serviceRegister w.
Proof.
  unfold negotiate. destruct (negb (isListening w)).
  - destruct (portAvailable E (_port w)) as [[[b q] evs']|]; [|discriminate].
    intros H; inversion H; subst. simpl. auto.
  - intros H; inversion H; subst. auto.
Qed.

(** The negotiation returns as soon as one port can be bound. *)
Lemma negotiate_total w r :
  in_range (_port w) -> in_range r -> listen E r = true ->
  exists w' evs, negotiate E w = Some (w', evs).
Proof.
  intros Hp Hr Hfree. unfold negotiate. destruct (negb (isListening w)); [|eauto].
  destruct (probe_total E (_port w) r Hp Hr Hfree) as [q [evs Hq]].
  unfold portAvailable. cbv zeta. rewrite Hq.
  destruct (negb (q =? _port w)); eauto.
Qed.

End HandlerFacts.

Section TlsFacts.

Variable E : Env.

(** The loop keeps the usable entries, in order, after what was there. *)
Lemma filterValid_filter crtPath cList :
  forall validList,
    fst (filterValid E crtPath cList validList)
    = validList ++ filter (certificateUsable E) cList.
Proof.
  induction cList as [|entry rest IH]; intros validList; simpl.
  - rewrite app_nil_r. reflexivity.
  - destruct (certificateUsable E entry).
    + rewrite IH, <- app_assoc. reflexivity.
    + specialize (IH validList).
      destruct (filterValid E crtPath rest validList) as [v evs]. exact IH.
Qed.

(** One error line for each entry that is dropped. *)
Lemma filterValid_events crtPath cList :
  forall validList,
    snd (filterValid E crtPath cList validList)
    = repeat (Log LError (MsgCertificateInvalid crtPath))
             (List.length (filter (fun c => negb (certificateUsable E c)) cList)).
Proof.
  induction cList as [|entry rest IH]; intros validList; simpl; [reflexivity|].
  destruct (certificateUsable E entry); simpl.
  - apply IH.
  - specialize (IH validList).
    destruct (filterValid E crtPath rest validList) as [v evs]. simpl in *.
    rewrite IH. reflexivity.
Qed.

Lemma filterValid_tls_events crtPath cList validList :
  forallb isTlsEvent (snd (filterValid E crtPath cList validList)) = true.
Proof.
  rewrite filterValid_events. apply forallb_forall. intros e He.
  apply repeat_spec in He. subst e. reflexivity.
Qed.

(** The TLS block, written with the paths, the certificates and the key
    it reads. *)
Lemma applyTls_ssl cfg w :
  _useSsl w = true ->
  applyTls E cfg w =
    (let w1 := fst (installCertificates (crtPathUsed E cfg)
                      (filter (certificateUsable E) (parsedCertificates E cfg)) w) in
     fst (installKey (keyPathUsed E cfg) (parsedKey E cfg) w1),
     snd (checkKeyPath E (keyPathAsked E cfg))
     ++ snd (checkCrtPath E (crtPathAsked E cfg))
     ++ OpenFile (crtPathUsed E cfg)
        :: snd (filterValid E (crtPathUsed E cfg) (parsedCertificates E cfg) [])
     ++ snd (installCertificates (crtPathUsed E cfg)
               (filter (certificateUsable E) (parsedCertificates E cfg)) w)
     ++ OpenFile (keyPathUsed E cfg)
        :: snd (installKey (keyPathUsed E cfg) (parsedKey E cfg)
                  (fst (installCertificates (crtPathUsed E cfg)
                          (filter (certificateUsable E) (parsedCertificates E cfg)) w)))).
Proof.
  intros Hssl. unfold applyTls, parsedKey, parsedCertificates, keyPathUsed, crtPathUsed,
    keyPathAsked, crtPathAsked.
  rewrite Hssl.
  destruct (checkKeyPath E _) as [keyPath evKeyPath].
  destruct (checkCrtPath E _) as [crtPath evCrtPath]. cbn [fst snd].
  pose proof (filterValid_filter crtPath (fromDevice E crtPath) []) as Hf.
  destruct (filterValid E crtPath (fromDevice E crtPath) []) as [validList evFilter].
  cbn [fst snd] in *. rewrite app_nil_l in Hf. subst validList.
  destruct (installCertificates crtPath _ w) as [w1 evCerts]. cbn [fst snd].
  destruct (installKey keyPath _ w1) as [w2 evKey]. reflexivity.
Qed.

Lemma applyTls_plain cfg w : _useSsl w = false -> applyTls E cfg w = (w, []).
Proof. unfold applyTls. intros ->. reflexivity. Qed.

Lemma installCertificates_spec crtPath validList w :
  let w' := fst (installCertificates crtPath validList w) in
  QtHttpServer.certificates (_server w')
  = match validList with
    | [] => QtHttpServer.certificates (_server w)
    | _ :: _ => validList
    end
  /\ QtHttpServer.privateKey (_server w') = QtHttpServer.privateKey (_server w)
  /\ QtHttpServer.state (_server w') = QtHttpServer.state (_server w)
  /\ _port w' = _port w /\ _useSsl w' = _useSsl w
  /\ WEBSERVER_DEFAULT_PORT w' = WEBSERVER_DEFAULT_PORT w
  /\ _serviceRegister w' = _serviceRegister w.
Proof. destruct validList; simpl; auto 8. Qed.

Lemma installKey_spec keyPath key w :
  let w' := fst (installKey keyPath key w) in
  QtHttpServer.privateKey (_server w')
  = (if key_isNull key then QtHttpServer.privateKey (_server w) else key)
  /\ QtHttpServer.certificates (_server w') = QtHttpServer.certificates (_server w)
  /\ QtHttpServer.state (_server w') = QtHttpServer.state (_server w)
  /\ _port w' = _port w /\ _useSsl w' = _useSsl w
  /\ WEBSERVER_DEFAULT_PORT w' = WEBSERVER_DEFAULT_PORT w
  /\ _serviceRegister w' = _serviceRegister w.
Proof. unfold installKey. destruct (key_isNull key); simpl; auto 8. Qed.

Lemma installCertificates_events crtPath validList w :
  forallb isTlsEvent (snd (installCertificates crtPath validList w)) = true.
Proof. destruct validList; reflexivity. Qed.

Lemma installKey_events keyPath key w :
  forallb isTlsEvent (snd (installKey keyPath key w)) = true.
Proof. unfold installKey. destruct (key_isNull key); reflexivity. Qed.

Lemma checkKeyPath_events p : forallb isTlsEvent (snd (checkKeyPath E p)) = true.
Proof.
  unfold checkKeyPath. destruct (negb _ && negb _); [destruct (negb _)|]; reflexivity.
Qed.

Lemma checkCrtPath_events p : forallb isTlsEvent (snd (checkCrtPath E p)) = true.
Proof.
  unfold checkCrtPath. destruct (negb _ && negb _); [destruct (negb _)|]; reflexivity.
Qed.

Lemma applyTls_events cfg w :
  forallb isTlsEvent (snd (applyTls E cfg w)) = true.
Proof.
  destruct (_useSsl w) eqn:Hssl.
  - rewrite (applyTls_ssl cfg w Hssl). cbn [snd].
    rewrite !forallb_app. cbn [forallb isTlsEvent]. rewrite !forallb_app.
    cbn [forallb isTlsEvent].
    rewrite checkKeyPath_events, checkCrtPath_events, filterValid_tls_events,
      installCertificates_events, installKey_events. reflexivity.
  - rewrite (applyTls_plain cfg w Hssl). reflexivity.
Qed.

(** The TLS block touches the two halves of the identity and nothing
    else. *)
Lemma applyTls_frame cfg w :
  let w' := fst (applyTls E cfg w) in
  _port w' = _port w /\ _useSsl w' = _useSsl w
  /\ WEBSERVER_DEFAULT_PORT w' = WEBSERVER_DEFAULT_PORT w
  /\ _serviceRegister w' = _serviceRegister w
  /\ QtHttpServer.state (_server w') = QtHttpServer.state (_server w).
Proof.
  destruct (_useSsl w) eqn:Hssl.
  - rewrite (applyTls_ssl cfg w Hssl). cbv zeta. cbn [fst].
    set (vl := filter (certificateUsable E) (parsedCertificates E cfg)).
    destruct (installCertificates_spec (crtPathUsed E cfg) vl w)
      as [_ [_ [Hs1 [Hp1 [Hu1 [Hd1 Hr1]]]]]].
    destruct (installKey_spec (keyPathUsed E cfg) (parsedKey E cfg)
                (fst (installCertificates (crtPathUsed E cfg) vl w)))
      as [_ [_ [Hs2 [Hp2 [Hu2 [Hd2 Hr2]]]]]].
    cbv zeta in *. rewrite Hs2, Hp2, Hu2, Hd2, Hr2, Hs1, Hp1, Hu1, Hd1, Hr1, Hssl.
    auto 6.
  - rewrite (applyTls_plain cfg w Hssl). simpl. auto 6.
Qed.

(** Each half is decided on its own. *)
Lemma applyTls_identity cfg w :
  _useSsl w = true ->
  let w' := fst (applyTls E cfg w) in
  QtHttpServer.certificates (_server w')
  = match filter (certificateUsable E) (parsedCertificates E cfg) with
    | [] => QtHttpServer.certificates (_server w)
    | _ :: _ => filter (certificateUsable E) (parsedCertificates E cfg)
    end
  /\ QtHttpServer.privateKey (_server w')
     = (if key_isNull (parsedKey E cfg)
        then QtHttpServer.privateKey (_server w) else parsedKey E cfg).
Proof.
  intros Hssl. rewrite (applyTls_ssl cfg w Hssl). cbv zeta. cbn [fst].
  set (vl := filter (certificateUsable E) (parsedCertificates E cfg)).
  destruct (installCertificates_spec (crtPathUsed E cfg) vl w) as [Hc1 [Hk1 _]].
  destruct (installKey_spec (keyPathUsed E cfg) (parsedKey E cfg)
              (fst (installCertificates (crtPathUsed E cfg) vl w))) as [Hk2 [Hc2 _]].
  cbv zeta in *. rewrite Hc2, Hk2, Hc1, Hk1. auto.
Qed.

End TlsFacts.

(** ** The settings handler as a whole *)

Section HandlerRuns.

Variable E : Env.

(** The handler, block after block. *)
Lemma handleSettingsUpdate_WEBSERVER cfg w :
  handleSettingsUpdate E WEBSERVER cfg w =
    match negotiate E (afterPortBlock E cfg w) with
    | None => None
    | Some (w3, ev3) =>
        Some (fst (start E (fst (applyTls E cfg w3))),
              snd (applyDocumentRoot E cfg w)
              ++ snd (applyPort E cfg (fst (applyDocumentRoot E cfg w)))
              ++ ev3
              ++ snd (applyTls E cfg w3)
              ++ snd (start E (fst (applyTls E cfg w3)))
              ++ [PortChanged (_port (fst (start E (fst (applyTls E cfg w3)))))])
    end.
Proof.
  unfold handleSettingsUpdate, afterPortBlock, andThen, total, emitPortChanged.
  cbn [settings_type_eqb].
  destruct (applyDocumentRoot E cfg w) as [w1 ev1]. cbn [fst snd].
  destruct (applyPort E cfg w1) as [w2 ev2]. cbn [fst snd].
  destruct (negotiate E w2) as [[w3 ev3]|]; [|reflexivity].
  destruct (applyTls E cfg w3) as [w4 ev4]. cbn [fst snd].
  destruct (start E w4) as [w5 ev5]. reflexivity.
Qed.

Lemma afterPortBlock_frame cfg w :
  _port (afterPortBlock E cfg w) = newPort cfg w
  /\ _useSsl (afterPortBlock E cfg w) = _useSsl w
  /\ WEBSERVER_DEFAULT_PORT (afterPortBlock E cfg w) = WEBSERVER_DEFAULT_PORT w
  /\ _serviceRegister (afterPortBlock E cfg w) = _serviceRegister w
  /\ QtHttpServer.certificates (_server (afterPortBlock E cfg w))
     = QtHttpServer.certificates (_server w)
  /\ QtHttpServer.privateKey (_server (afterPortBlock E cfg w))
     = QtHttpServer.privateKey (_server w).
Proof.
  unfold afterPortBlock.
  destruct (applyDocumentRoot_frame E cfg w) as [Hp [Hu [Hd [Hs Hr]]]].
  destruct (applyPort_frame E cfg (fst (applyDocumentRoot E cfg w)))
    as [Hp' [Hu' [Hd' [Hr' [Hc' Hk']]]]].
  cbv zeta in *. rewrite Hp', Hu', Hd', Hr', Hc', Hk', Hu, Hd, Hs, Hr.
  rewrite (newPort_frame cfg w _ Hu Hd). auto 6.
Qed.

(** The handler returns as soon as one port can be bound. *)
Lemma handleSettingsUpdate_negotiates cfg w :
  somePortFree E ->
  exists w3 ev3, negotiate E (afterPortBlock E cfg w) = Some (w3, ev3).
Proof.
  intros [r [Hr Hfree]]. apply (negotiate_total E _ r); [|exact Hr|exact Hfree].
  destruct (afterPortBlock_frame cfg w) as [Hp _]. rewrite Hp. apply newPort_range.
Qed.

End HandlerRuns.

(** ** Settings of another type *)

(** C10. A call of [handleSettingsUpdate] with a settings type other than
    [WEBSERVER] returns the object as it was (port, document root,
    certificates and key, listener state and all other members) and
    produces no event. *)
Theorem other_settings_ignored (E : Env) (type : settings_type)
    (config : QJsonObject) (w : WebServer) :
  type <> WEBSERVER ->
  handleSettingsUpdate E type config w = Some (w, []).
Proof.
  intros Hty. unfold handleSettingsUpdate.
  destruct type as [|tag]; [congruence|reflexivity].
Qed.

Lemma other_settings_ignored_witness :
  handleSettingsUpdate allFree (OTHER_SETTINGS 3) (plainConfig 8090)
    (newWebServer 8090 false)
  = Some (newWebServer 8090 false, []).
Proof.
  apply (other_settings_ignored allFree (OTHER_SETTINGS 3)).
  discriminate.
Defined.

(** ** Publication of the port *)

Section PortChanged.

Variable E : Env.




End PortChanged.




(** ** The service announcer *)

(** C6, as amended. [onServerStarted] announces the port exactly when
    Bonjour is compiled in, the instance is not a TLS instance and no
    registration for this very port exists; a registration for another port
    is deleted first. [onServerStopped] withdraws nothing and leaves the
    registration in place. A TLS instance never announces. *)
Theorem announcer_on_start_and_stop (E : Env) (port : Z) (w : WebServer) :
  count isAnnounce (snd (onServerStarted E port w))
  = (if ENABLE_BONJOUR E && negb (_useSsl w) && negb (registeredAt port w)
     then 1%nat else 0%nat)
  /\ count isWithdraw (snd (onServerStarted E port w))
     = (if ENABLE_BONJOUR E && negb (_useSsl w) && negb (registeredAt port w)
        then match _serviceRegister w with Some _ => 1%nat | None => 0%nat end
        else 0%nat)
  /\ _serviceRegister (fst (onServerStarted E port w))
     = (if ENABLE_BONJOUR E && negb (_useSsl w) then Some port else _serviceRegister w)
  /\ count isWithdraw (snd (onServerStopped w)) = 0%nat
  /\ count isAnnounce (snd (onServerStopped w)) = 0%nat
  /\ _serviceRegister (fst (onServerStopped w)) = _serviceRegister w.
Proof.
  unfold onServerStarted, onServerStopped, registeredAt.
  destruct w as [p ssl ini url dflt srv sfs reg]. cbn [_useSsl _serviceRegister with_inited].
  destruct (ENABLE_BONJOUR E), ssl; cbn [andb negb]; try (repeat split; reflexivity).
  destruct reg as [registered|]; cbn [negb]; [|repeat split; reflexivity].
  destruct (registered =? port) eqn:Hreg; cbn [negb]; repeat split; try reflexivity.
  apply Z.eqb_eq in Hreg. subst. reflexivity.
Qed.

(** C6, as stated, fails. A plain instance listens on 8090 and has
    announced it. It is stopped: the listener leaves [Listening] and nothing
    is withdrawn. It is started again: the listener enters [Listening] and
    nothing is announced. *)
Lemma announcer_misses_transitions :
  exists w1 evs1,
    handleSettingsUpdate allFree WEBSERVER (plainConfig 8090) (newWebServer 8090 false)
    = Some (w1, evs1)
    /\ isListening w1 = true
    /\ count isAnnounce evs1 = 1%nat
    /\ isListening (fst (stop allFree w1)) = false
    /\ count isWithdraw (snd (stop allFree w1)) = 0%nat
    /\ isListening (fst (start allFree (fst (stop allFree w1)))) = true
    /\ count isAnnounce (snd (start allFree (fst (stop allFree w1)))) = 0%nat.
Proof.
  eexists. eexists. split; [vm_compute; reflexivity|].
  repeat split; vm_compute; reflexivity.
Qed.

(** ** TLS material *)

Section TlsRuns.

Variable E : Env.

Lemma onServerStarted_slot_events port w :
  forallb isSlotEvent (snd (onServerStarted E port w)) = true.
Proof.
  unfold onServerStarted.
  destruct (ENABLE_BONJOUR E && negb (_useSsl (with_inited true w))); [|reflexivity].
  destruct (_serviceRegister (with_inited true w)) as [registered|]; [|reflexivity].
  destruct (negb (registered =? port)); reflexivity.
Qed.

(** The events of [start]: the call, then what the slots do. *)
Lemma start_slots w :
  exists evs,
    snd (start E w) = ServerStart (_port w) :: evs /\ forallb isSlotEvent evs = true.
Proof.
  assert (Hstop : forallb isSlotEvent (implicitStop w) = true)
    by (unfold implicitStop; destruct (isListening w); reflexivity).
  destruct (listen E (_port w)) eqn:Hb.
  - rewrite (start_bound E w Hb). cbn [snd]. eexists. split; [reflexivity|].
    rewrite forallb_app, Hstop. apply onServerStarted_slot_events.
  - rewrite (start_refused E w Hb). cbn [snd]. eexists. split; [reflexivity|].
    rewrite forallb_app, Hstop. reflexivity.
Qed.

(** [start] calls the server once and never stops it. *)
Lemma start_calls w :
  count isServerStart (snd (start E w)) = 1%nat
  /\ count isServerStop (snd (start E w)) = 0%nat.
Proof.
  destruct (start_slots w) as [evs [Hevs Hslots]]. rewrite Hevs, !count_cons.
  cbn [isServerStart isServerStop].
  rewrite !(count_disjoint _ isSlotEvent);
    [split; reflexivity|event_cases|exact Hslots|event_cases|exact Hslots].
Qed.

Lemma checkKeyPath_log_events p : forallb isLogOrSetKey (snd (checkKeyPath E p)) = true.
Proof.
  unfold checkKeyPath. destruct (negb _ && negb _); [destruct (negb _)|]; reflexivity.
Qed.

Lemma checkCrtPath_log_events p : forallb isLogOrSetKey (snd (checkCrtPath E p)) = true.
Proof.
  unfold checkCrtPath. destruct (negb _ && negb _); [destruct (negb _)|]; reflexivity.
Qed.

Lemma filterValid_log_events crtPath cList validList :
  forallb isLogOrSetKey (snd (filterValid E crtPath cList validList)) = true.
Proof.
  rewrite filterValid_events. apply forallb_forall. intros e He.
  apply repeat_spec in He. subst e. reflexivity.
Qed.

Lemma installKey_log_events keyPath k w :
  forallb isLogOrSetKey (snd (installKey keyPath k w)) = true.
Proof. unfold installKey. destruct (key_isNull k); reflexivity. Qed.

(** The TLS block sets a certificate sequence at most once, and then the
    usable certificates of the file. *)
Lemma applyTls_setCertificates cfg w :
  _useSsl w = true ->
  filter isSetCertificates (snd (applyTls E cfg w))
  = match filter (certificateUsable E) (parsedCertificates E cfg) with
    | [] => []
    | _ :: _ =>
        [SetCertificates (filter (certificateUsable E) (parsedCertificates E cfg))]
    end.
Proof.
  intros Hssl. rewrite (applyTls_ssl E cfg w Hssl). cbn [snd].
  rewrite !filter_app. cbn [filter isSetCertificates]. rewrite !filter_app.
  cbn [filter isSetCertificates].
  rewrite (filter_disjoint isSetCertificates isLogOrSetKey _ ltac:(event_cases) (checkKeyPath_log_events _)).
  rewrite (filter_disjoint isSetCertificates isLogOrSetKey _ ltac:(event_cases) (checkCrtPath_log_events _)).
  rewrite (filter_disjoint isSetCertificates isLogOrSetKey _ ltac:(event_cases)
             (filterValid_log_events _ _ _)).
  rewrite (filter_disjoint isSetCertificates isLogOrSetKey _ ltac:(event_cases)
             (installKey_log_events _ _ _)).
  cbn [app]. rewrite app_nil_r.
  destruct (filter (certificateUsable E) (parsedCertificates E cfg)); reflexivity.
Qed.

(** The TLS block opens the certificate file and then the key file, at
    the paths it has settled on. *)
Lemma applyTls_opens cfg w :
  _useSsl w = true ->
  exists before between after,
    snd (applyTls E cfg w)
    = before ++ OpenFile (crtPathUsed E cfg) :: between
      ++ OpenFile (keyPathUsed E cfg) :: after
    /\ forallb isTlsEvent after = true.
Proof.
  intros Hssl. rewrite (applyTls_ssl E cfg w Hssl). cbn [snd].
  exists (snd (checkKeyPath E (keyPathAsked E cfg))
          ++ snd (checkCrtPath E (crtPathAsked E cfg))).
  exists (snd (filterValid E (crtPathUsed E cfg) (parsedCertificates E cfg) [])
          ++ snd (installCertificates (crtPathUsed E cfg)
                    (filter (certificateUsable E) (parsedCertificates E cfg)) w)).
  exists (snd (installKey (keyPathUsed E cfg) (parsedKey E cfg)
                 (fst (installCertificates (crtPathUsed E cfg)
                         (filter (certificateUsable E) (parsedCertificates E cfg)) w)))).
  split; [|apply installKey_events].
  rewrite <- !app_assoc. reflexivity.
Qed.

(** What a run of the handler on a TLS instance leaves installed, the
    files it opens and the certificate sequences it sets on the way. *)
Lemma handleSettingsUpdate_tls cfg w :
  _useSsl w = true -> somePortFree E ->
  exists w' evs,
    handleSettingsUpdate E WEBSERVER cfg w = Some (w', evs)
    /\ QtHttpServer.certificates (_server w')
       = match filter (certificateUsable E) (parsedCertificates E cfg) with
         | [] => QtHttpServer.certificates (_server w)
         | _ :: _ => filter (certificateUsable E) (parsedCertificates E cfg)
         end
    /\ QtHttpServer.privateKey (_server w')
       = (if key_isNull (parsedKey E cfg)
          then QtHttpServer.privateKey (_server w) else parsedKey E cfg)
    /\ (exists before between after,
           evs = before ++ OpenFile (crtPathUsed E cfg) :: between
                 ++ OpenFile (keyPathUsed E cfg) :: after
           /\ count isServerStart after = 1%nat)
    /\ filter isSetCertificates evs
       = match filter (certificateUsable E) (parsedCertificates E cfg) with
         | [] => []
         | _ :: _ =>
             [SetCertificates (filter (certificateUsable E) (parsedCertificates E cfg))]
         end.
Proof.
  intros Hssl Hfree.
  destruct (handleSettingsUpdate_negotiates E cfg w Hfree) as [w3 [ev3 Hneg]].
  rewrite handleSettingsUpdate_WEBSERVER, Hneg.
  destruct (afterPortBlock_frame E cfg w) as [_ [Hu2 [_ [_ [Hc2 Hk2]]]]].
  destruct (negotiate_frame E _ _ _ Hneg) as [Hu3 [_ [Hs3 _]]].
  assert (Hssl3 : _useSsl w3 = true) by congruence.
  destruct (applyTls_identity E cfg w3 Hssl3) as [Hc4 Hk4].
  destruct (start_frame E (fst (applyTls E cfg w3))) as [_ [_ [_ [Hc5 Hk5]]]].
  destruct (applyTls_opens cfg w3 Hssl3) as [before [between [after [Hev4 Hafter]]]].
  pose proof (applyTls_setCertificates cfg w3 Hssl3) as Hset.
  pose proof (start_calls (fst (applyTls E cfg w3))) as [Hstart _].
  pose proof (start_events E (fst (applyTls E cfg w3))) as Hev5.
  pose proof (applyDocumentRoot_events E cfg w) as Hev1.
  pose proof (applyPort_events E cfg (fst (applyDocumentRoot E cfg w))) as Hev2.
  pose proof (negotiate_events E _ _ _ Hneg) as Hev3.
  cbv zeta in *.
  set (ev1 := snd (applyDocumentRoot E cfg w)) in *.
  set (ev2 := snd (applyPort E cfg (fst (applyDocumentRoot E cfg w)))) in *.
  set (ev4 := snd (applyTls E cfg w3)) in *.
  set (w5 := fst (start E (fst (applyTls E cfg w3)))) in *.
  set (ev5 := snd (start E (fst (applyTls E cfg w3)))) in *.
  exists w5, (ev1 ++ ev2 ++ ev3 ++ ev4 ++ ev5 ++ [PortChanged (_port w5)]).
  split; [reflexivity|]. split; [|split; [|split]].
  - rewrite Hc5, Hc4, Hs3, Hc2. reflexivity.
  - rewrite Hk5, Hk4, Hs3, Hk2. reflexivity.
  - exists (ev1 ++ ev2 ++ ev3 ++ before), between,
      (after ++ ev5 ++ [PortChanged (_port w5)]).
    split.
    + rewrite Hev4. rewrite <- !app_assoc. cbn [app]. rewrite <- !app_assoc.
      reflexivity.
    + rewrite !count_app, Hstart.
      rewrite (count_disjoint isServerStart isTlsEvent _ ltac:(event_cases) Hafter). reflexivity.
  - rewrite !filter_app, Hset.
    rewrite (filter_disjoint isSetCertificates isDocumentRootEvent _ ltac:(event_cases) Hev1).
    rewrite (filter_disjoint isSetCertificates isStopEvent _ ltac:(event_cases) Hev2).
    rewrite (filter_disjoint isSetCertificates isNegotiation _ ltac:(event_cases) Hev3).
    rewrite (filter_disjoint isSetCertificates isStartEvent _ ltac:(event_cases) Hev5).
    cbn [filter isSetCertificates app]. rewrite app_nil_r. reflexivity.
Qed.

End TlsRuns.

(** *** The two halves of the identity *)

(** C3, as amended. On a TLS instance each half of the identity is
    decided on its own: the certificate sequence is replaced exactly when
    the filtered sequence is not empty, the key is replaced exactly when the
    parsed key is valid, and a half that is not replaced keeps what was
    installed before. *)
Theorem identity_halves_installed_separately (E : Env) (config : QJsonObject)
    (w : WebServer) :
  _useSsl w = true -> somePortFree E ->
  exists w' evs,
    handleSettingsUpdate E WEBSERVER config w = Some (w', evs)
    /\ QtHttpServer.certificates (_server w')
       = match filter (certificateUsable E) (parsedCertificates E config) with
         | [] => QtHttpServer.certificates (_server w)
         | _ :: _ => filter (certificateUsable E) (parsedCertificates E config)
         end
    /\ QtHttpServer.privateKey (_server w')
       = (if key_isNull (parsedKey E config)
          then QtHttpServer.privateKey (_server w) else parsedKey E config).
Proof.
  intros Hssl Hfree.
  destruct (handleSettingsUpdate_tls E config w Hssl Hfree)
    as [w' [evs [Hrun [Hcerts [Hkey _]]]]].
  exists w', evs. auto.
Qed.

Lemma identity_halves_installed_separately_witness :
  exists w' evs,
    handleSettingsUpdate (customFiles 0) WEBSERVER
      (tlsConfig 8092 (Some "/etc/ssl/web.key"%string) (Some "/etc/ssl/web.crt"%string))
      (newWebServer 8090 true)
    = Some (w', evs)
    /\ QtHttpServer.certificates (_server w')
       = match filter (certificateUsable (customFiles 0))
                 (parsedCertificates (customFiles 0)
                    (tlsConfig 8092 (Some "/etc/ssl/web.key"%string)
                       (Some "/etc/ssl/web.crt"%string))) with
         | [] => QtHttpServer.certificates (_server (newWebServer 8090 true))
         | _ :: _ =>
             filter (certificateUsable (customFiles 0))
               (parsedCertificates (customFiles 0)
                  (tlsConfig 8092 (Some "/etc/ssl/web.key"%string)
                     (Some "/etc/ssl/web.crt"%string)))
         end
    /\ QtHttpServer.privateKey (_server w')
       = (if key_isNull
               (parsedKey (customFiles 0)
                  (tlsConfig 8092 (Some "/etc/ssl/web.key"%string)
                     (Some "/etc/ssl/web.crt"%string)))
          then QtHttpServer.privateKey (_server (newWebServer 8090 true))
          else parsedKey (customFiles 0)
                 (tlsConfig 8092 (Some "/etc/ssl/web.key"%string)
                    (Some "/etc/ssl/web.crt"%string))).
Proof.
  apply (identity_halves_installed_separately (customFiles 0)).
  - reflexivity.
  - exists 8092. split; [unfold in_range, modulus; lia|reflexivity].
Defined.

(** C3, as stated, fails. A TLS instance has the bundled certificate and
    key installed. New settings name a certificate file with a usable
    certificate and a key file that cannot be parsed. After the call the
    new certificate is installed, next to the old key. *)
Lemma identity_half_updated :
  exists w1 evs1 w2 evs2,
    handleSettingsUpdate (customFiles 0) WEBSERVER (tlsConfig 8092 None None)
      (newWebServer 8090 true)
    = Some (w1, evs1)
    /\ QtHttpServer.certificates (_server w1) = [certificate "bundled" (3650 * msecsPerDay)]
    /\ QtHttpServer.privateKey (_server w1) = key "bundled"
    /\ handleSettingsUpdate (customFiles 0) WEBSERVER
         (tlsConfig 8092 (Some "/etc/ssl/web.key"%string) (Some "/etc/ssl/web.crt"%string))
         w1
       = Some (w2, evs2)
    /\ key_isNull
         (parsedKey (customFiles 0)
            (tlsConfig 8092 (Some "/etc/ssl/web.key"%string)
               (Some "/etc/ssl/web.crt"%string))) = true
    /\ QtHttpServer.certificates (_server w2) = [certificate "custom" (30 * msecsPerDay)]
    /\ QtHttpServer.privateKey (_server w2) = key "bundled".
Proof.
  eexists. eexists. eexists. eexists.
  split; [vm_compute; reflexivity|].
  split; [vm_compute; reflexivity|].
  split; [vm_compute; reflexivity|].
  split; [vm_compute; reflexivity|].
  repeat split; vm_compute; reflexivity.
Qed.

(** *** The certificates that are kept *)







(** *** The paths that are read *)






(** ** Stop, negotiation and start *)

Section Restart.

Variable E : Env.


(** [stop] begins with the call of the server; the rest comes from the
    slot. *)
Lemma stop_head w :
  exists rest, snd (stop E w) = ServerStop :: rest /\ forallb isSlotEvent rest = true.
Proof.
  destruct (isListening w) eqn:Hl.
  - rewrite (stop_listening E w Hl). eexists. split; reflexivity.
  - rewrite (stop_not_listening E w Hl). eexists. split; reflexivity.
Qed.

(** After the port block the server listens only if it did and the port
    is the one asked for. *)
Lemma afterPortBlock_changed cfg w :
  _port w <> newPort cfg w -> isListening (afterPortBlock E cfg w) = false.
Proof.
  intros Hne. unfold afterPortBlock.
  destruct (applyDocumentRoot_frame E cfg w) as [Hp [Hu [Hd _]]]. cbv zeta in *.
  rewrite applyPort_changed.
  - apply stop_stopped.
  - rewrite Hp, (newPort_frame cfg w _ Hu Hd). exact Hne.
Qed.

Lemma afterPortBlock_same cfg w :
  _port w = newPort cfg w ->
  snd (applyPort E cfg (fst (applyDocumentRoot E cfg w))) = []
  /\ _server (afterPortBlock E cfg w) = _server w.
Proof.
  intros Heq. unfold afterPortBlock.
  destruct (applyDocumentRoot_frame E cfg w) as [Hp [Hu [Hd [Hs _]]]]. cbv zeta in *.
  rewrite applyPort_same.
  - split; [reflexivity|exact Hs].
  - rewrite Hp, (newPort_frame cfg w _ Hu Hd). exact Heq.
Qed.

Lemma afterPortBlock_not_listening cfg w :
  isListening w = false -> isListening (afterPortBlock E cfg w) = false.
Proof.
  intros Hl. destruct (Z.eq_dec (_port w) (newPort cfg w)) as [Heq|Hne].
  - destruct (afterPortBlock_same cfg w Heq) as [_ Hs].
    unfold isListening in *. rewrite Hs. exact Hl.
  - apply afterPortBlock_changed, Hne.
Qed.

(** A free port is taken as it is. *)
Lemma portAvailable_free P :
  listen E P = true ->
  portAvailable E P = Some (true, P, [Probe P true; ProbeClose]).
Proof.
  intros Hfree. unfold portAvailable. cbv zeta.
  assert (Hp : probe E (Z.to_nat modulus) P = Some (P, [Probe P true])).
  { destruct (Z.to_nat modulus) as [|fuel] eqn:Hfuel.
    - unfold modulus in Hfuel. lia.
    - simpl. rewrite Hfree. reflexivity. }
  rewrite Hp, Z.eqb_refl. reflexivity.
Qed.

(** A negotiation on a server that does not listen runs the probe. *)
Lemma negotiate_probes w w' evs :
  isListening w = false -> negotiate E w = Some (w', evs) -> In ProbeClose evs.
Proof.
  intros Hl. rewrite (negotiate_not_listening E w Hl).
  unfold portAvailable. cbv zeta.
  destruct (probe E (Z.to_nat modulus) (_port w)) as [[q evs']|]; [|discriminate].
  destruct (negb (q =? _port w)); intros H; inversion H; subst;
    apply in_or_app; right; left; reflexivity.
Qed.

(** With no port to bind, a negotiation that probes does not return, and
    neither does the handler. *)
Lemma handleSettingsUpdate_no_port cfg w :
  (forall p, listen E p = false) ->
  isListening (afterPortBlock E cfg w) = false ->
  negotiate E (afterPortBlock E cfg w) = None
  /\ handleSettingsUpdate E WEBSERVER cfg w = None.
Proof.
  intros Hall Hl.
  assert (Hn : negotiate E (afterPortBlock E cfg w) = None).
  { rewrite (negotiate_not_listening E _ Hl). unfold portAvailable. cbv zeta.
    rewrite (probe_exhausted E); [reflexivity|intros p _; apply Hall|].
    destruct (afterPortBlock_frame E cfg w) as [Hp2 _]. rewrite Hp2.
    apply newPort_range. }
  split; [exact Hn|]. rewrite handleSettingsUpdate_WEBSERVER, Hn. reflexivity.
Qed.

End Restart.

(** C5, as amended. In every run of the handler for which the port asked
    for (the [sslPort] member on a TLS instance, the [port] member
    otherwise, as a [quint16]) differs from [_port], and in which some port
    can be bound: before [stop] is called there are only log lines and the
    call of [setBaseUrl], so no probe, no TLS loading, no start and no other
    stop; after the port block the server does not listen; and what
    follows, the probe included, contains no further stop and exactly one
    call of [start]. *)
Theorem stop_precedes_single_start (E : Env) (config : QJsonObject) (w : WebServer) :
  _port w <> newPort config w -> somePortFree E ->
  exists w' post,
    handleSettingsUpdate E WEBSERVER config w
    = Some (w', snd (applyDocumentRoot E config w) ++ ServerStop :: post)
    /\ count isProbe (snd (applyDocumentRoot E config w)) = 0%nat
    /\ count isTlsLoad (snd (applyDocumentRoot E config w)) = 0%nat
    /\ count isServerStart (snd (applyDocumentRoot E config w)) = 0%nat
    /\ count isServerStop (snd (applyDocumentRoot E config w)) = 0%nat
    /\ isListening (afterPortBlock E config w) = false
    /\ In ProbeClose post
    /\ count isServerStop post = 0%nat
    /\ count isServerStart post = 1%nat.
Proof.
  intros Hne Hfree.
  destruct (handleSettingsUpdate_negotiates E config w Hfree) as [w3 [ev3 Hneg]].
  rewrite handleSettingsUpdate_WEBSERVER, Hneg.
  pose proof (applyDocumentRoot_events E config w) as Hev1.
  pose proof (negotiate_events E _ _ _ Hneg) as Hev3.
  pose proof (applyTls_events E config w3) as Hev4.
  pose proof (negotiate_probes E _ _ _ (afterPortBlock_changed E config w Hne) Hneg)
    as Hclose.
  destruct (start_calls E (fst (applyTls E config w3))) as [Hstart Hnostop].
  destruct (applyDocumentRoot_frame E config w) as [Hp [Hu [Hd _]]]. cbv zeta in *.
  assert (Hne1 : _port (fst (applyDocumentRoot E config w))
                 <> newPort config (fst (applyDocumentRoot E config w))).
  { rewrite Hp, (newPort_frame config w _ Hu Hd). exact Hne. }
  rewrite (applyPort_changed E config _ Hne1).
  destruct (stop_head E (with_port (newPort config (fst (applyDocumentRoot E config w)))
                           (fst (applyDocumentRoot E config w))))
    as [rest [Hstop Hrest]].
  rewrite Hstop.
  exists (fst (start E (fst (applyTls E config w3)))).
  exists (rest ++ ev3 ++ snd (applyTls E config w3)
          ++ snd (start E (fst (applyTls E config w3)))
          ++ [PortChanged (_port (fst (start E (fst (applyTls E config w3)))))]).
  split; [reflexivity|].
  split; [apply (count_disjoint isProbe isDocumentRootEvent _ ltac:(event_cases) Hev1)|].
  split; [apply (count_disjoint isTlsLoad isDocumentRootEvent _ ltac:(event_cases) Hev1)|].
  split; [apply (count_disjoint isServerStart isDocumentRootEvent _ ltac:(event_cases) Hev1)|].
  split; [apply (count_disjoint isServerStop isDocumentRootEvent _ ltac:(event_cases) Hev1)|].
  split; [apply afterPortBlock_changed, Hne|].
  split; [apply in_or_app; right; apply in_or_app; left; exact Hclose|].
  split.
  - rewrite !count_app, Hnostop.
    rewrite (count_disjoint isServerStop isSlotEvent _ ltac:(event_cases) Hrest).
    rewrite (count_disjoint isServerStop isNegotiation _ ltac:(event_cases) Hev3).
    rewrite (count_disjoint isServerStop isTlsEvent _ ltac:(event_cases) Hev4).
    reflexivity.
  - rewrite !count_app, Hstart.
    rewrite (count_disjoint isServerStart isSlotEvent _ ltac:(event_cases) Hrest).
    rewrite (count_disjoint isServerStart isNegotiation _ ltac:(event_cases) Hev3).
    rewrite (count_disjoint isServerStart isTlsEvent _ ltac:(event_cases) Hev4).
    reflexivity.
Qed.

(** A plain instance listens on 8090; new settings ask for 8095. *)
Lemma stop_precedes_single_start_witness :
  exists w' post,
    handleSettingsUpdate allFree WEBSERVER (plainConfig 8095) (listeningPlain 8090)
    = Some (w', snd (applyDocumentRoot allFree (plainConfig 8095) (listeningPlain 8090))
                ++ ServerStop :: post)
    /\ count isProbe
         (snd (applyDocumentRoot allFree (plainConfig 8095) (listeningPlain 8090))) = 0%nat
    /\ count isTlsLoad
         (snd (applyDocumentRoot allFree (plainConfig 8095) (listeningPlain 8090))) = 0%nat
    /\ count isServerStart
         (snd (applyDocumentRoot allFree (plainConfig 8095) (listeningPlain 8090))) = 0%nat
    /\ count isServerStop
         (snd (applyDocumentRoot allFree (plainConfig 8095) (listeningPlain 8090))) = 0%nat
    /\ isListening (afterPortBlock allFree (plainConfig 8095) (listeningPlain 8090)) = false
    /\ In ProbeClose post
    /\ count isServerStop post = 0%nat
    /\ count isServerStart post = 1%nat.
Proof.
  apply (stop_precedes_single_start allFree (plainConfig 8095) (listeningPlain 8090)).
  - vm_compute. discriminate.
  - exists 8095. split; [unfold in_range, modulus; lia|reflexivity].
Defined.

(** C5, as stated, fails. A plain instance listens on 8090, new settings
    ask for 8095, and no port can be bound: the listener is stopped, the
    probe that follows is refused for ever, and the run does not return, so
    that no start follows the stop. *)
Lemma stop_without_start :
  _port (listeningPlain 8090) <> newPort (plainConfig 8095) (listeningPlain 8090)
  /\ isListening (listeningPlain 8090) = true
  /\ snd (applyPort (portsEnv (fun _ => false)) (plainConfig 8095)
            (fst (applyDocumentRoot (portsEnv (fun _ => false)) (plainConfig 8095)
                    (listeningPlain 8090))))
     = [ServerStop; Log LInfo (MsgStopped "HyperHDR Webserver"); StateChange false]
  /\ isListening (afterPortBlock (portsEnv (fun _ => false)) (plainConfig 8095)
                    (listeningPlain 8090)) = false
  /\ negotiate (portsEnv (fun _ => false))
       (afterPortBlock (portsEnv (fun _ => false)) (plainConfig 8095)
          (listeningPlain 8090)) = None
  /\ handleSettingsUpdate (portsEnv (fun _ => false)) WEBSERVER (plainConfig 8095)
       (listeningPlain 8090) = None.
Proof.
  split; [vm_compute; discriminate|].
  split; [reflexivity|].
  split; [vm_compute; reflexivity|].
  split; [vm_compute; reflexivity|].
  apply handleSettingsUpdate_no_port; [reflexivity|vm_compute; reflexivity].
Qed.

(** ** Applying the same settings again *)

Section Reapply.

Variable E : Env.







End Reapply.




(** * Further properties of the code *)

(** ** The probe as a whole *)

(** X1. Whenever [portAvailable] returns, the port it leaves is the first
    one, in the cyclic order of [quint16] that starts at the requested
    port, that the probe server could bind: it was accepted, every port
    passed on the way was refused, and it is a [quint16]. The result is
    [true] exactly when no port was passed, one "already in use" warning is
    logged for each port passed, and there is one attempt more than
    warnings. *)
Theorem portAvailable_cyclic_first (E : Env) (P : Z) (b : bool) (q : Z)
    (evs : list Event) :
  in_range P ->
  portAvailable E P = Some (b, q, evs) ->
  exists k : nat,
    Z.of_nat k < modulus
    /\ q = to_quint16 (P + Z.of_nat k)
    /\ in_range q
    /\ listen E q = true
    /\ refusedUpTo E P k
    /\ b = Nat.eqb k 0
    /\ count isPortInUse evs = k
    /\ count isProbeAttempt evs = S k.
Proof.
  intros HP Hpa.
  destruct (portAvailable_events E P b q evs Hpa) as [_ [_ Hb]].
  revert Hpa. unfold portAvailable. cbv zeta.
  destruct (probe E (Z.to_nat modulus) P) as [[q' evs']|] eqn:Hp; [|discriminate].
  intros Hpa.
  assert (Hqq : q' = q) by (destruct (negb (q' =? P)); inversion Hpa; reflexivity).
  assert (Hevs : evs = evs' ++ [ProbeClose; Log LWarning (MsgPortInstead P q')]
                 \/ evs = evs' ++ [ProbeClose]).
  { destruct (negb (q' =? P)); inversion Hpa; auto. }
  clear Hpa. rewrite Hqq in Hp, Hevs. clear Hqq q'.
  rewrite <- (to_quint16_small P HP) in Hp.
  destruct (probe_trace E _ _ _ _ Hp) as [k [Hk [Href [Hq [Hfree [Hc1 Hc2]]]]]].
  exists k. unfold in_range, modulus in HP, Hk |- *.
  split; [lia|]. split; [exact Hq|].
  split; [rewrite Hq; apply to_quint16_range|].
  split; [exact Hfree|]. split; [exact Href|].
  split.
  - rewrite Hb. destruct k as [|k].
    + rewrite Hq, Z.add_0_r, to_quint16_small by (unfold in_range, modulus; lia).
      rewrite Z.eqb_refl. reflexivity.
    + cbn [Nat.eqb]. apply Z.eqb_neq. rewrite Hq. unfold to_quint16, modulus.
      intros Heq. Z.div_mod_to_equations. lia.
  - destruct Hevs as [-> | ->]; rewrite !count_app, Hc1, Hc2; unfold count; simpl;
      split; lia.
Qed.

Lemma portAvailable_cyclic_first_witness :
  exists k : nat,
    Z.of_nat k < modulus
    /\ 1 = to_quint16 (65534 + Z.of_nat k)
    /\ in_range 1
    /\ listen (portsEnv (fun p => p =? 1)) 1 = true
    /\ refusedUpTo (portsEnv (fun p => p =? 1)) 65534 k
    /\ false = Nat.eqb k 0
    /\ count isPortInUse
         [Probe 65534 false; Log LWarning (MsgPortInUse 65534);
          Probe 65535 false; Log LWarning (MsgPortInUse 65535);
          Probe 0 false; Log LWarning (MsgPortInUse 0);
          Probe 1 true; ProbeClose; Log LWarning (MsgPortInstead 65534 1)] = k
    /\ count isProbeAttempt
         [Probe 65534 false; Log LWarning (MsgPortInUse 65534);
          Probe 65535 false; Log LWarning (MsgPortInUse 65535);
          Probe 0 false; Log LWarning (MsgPortInUse 0);
          Probe 1 true; ProbeClose; Log LWarning (MsgPortInstead 65534 1)] = S k.
Proof.
  apply (portAvailable_cyclic_first (portsEnv (fun p => p =? 1)) 65534).
  - unfold in_range, modulus. lia.
  - vm_compute. reflexivity.
Defined.

(** X2. For a requested port that is a [quint16], [portAvailable] returns
    if and only if some port can be bound; with every port refused the loop
    never ends. *)
Theorem portAvailable_returns_iff (E : Env) (P : Z) :
  in_range P ->
  (portAvailable E P <> None <-> somePortFree E).
Proof.
  intros HP. split.
  - unfold portAvailable. cbv zeta.
    destruct (probe E (Z.to_nat modulus) P) as [[q' evs']|] eqn:Hp; [|congruence].
    intros _. rewrite <- (to_quint16_small P HP) in Hp.
    destruct (probe_returns E _ _ _ _ Hp) as [k [_ [_ [Hq Hfree]]]].
    exists q'. split; [rewrite Hq; apply to_quint16_range|exact Hfree].
  - intros [r [Hr Hfree]].
    destruct (probe_total E P r HP Hr Hfree) as [q [evs Hp]].
    unfold portAvailable. cbv zeta. rewrite Hp.
    destruct (negb (q =? P)); discriminate.
Qed.

Lemma portAvailable_returns_iff_witness :
  portAvailable (busyBetween 0 65534) 8090 <> None
  <-> somePortFree (busyBetween 0 65534).
Proof.
  apply (portAvailable_returns_iff (busyBetween 0 65534) 8090).
  unfold in_range, modulus. lia.
Defined.

(** ** Runs of the handler, block by block *)

Section Runs.

Variable E : Env.

(** A returning run, taken apart. *)
Lemma handleSettingsUpdate_inv cfg w w' evs :
  handleSettingsUpdate E WEBSERVER cfg w = Some (w', evs) ->
  exists w3 ev3,
    negotiate E (afterPortBlock E cfg w) = Some (w3, ev3)
    /\ w' = fst (start E (fst (applyTls E cfg w3)))
    /\ evs = snd (applyDocumentRoot E cfg w)
             ++ snd (applyPort E cfg (fst (applyDocumentRoot E cfg w)))
             ++ ev3 ++ snd (applyTls E cfg w3)
             ++ snd (start E (fst (applyTls E cfg w3)))
             ++ [PortChanged (_port w')].
Proof.
  rewrite handleSettingsUpdate_WEBSERVER.
  destruct (negotiate E (afterPortBlock E cfg w)) as [[w3 ev3]|]; [|discriminate].
  intros H; inversion H; subst. exists w3, ev3. repeat split.
Qed.

(** The document root block, case by case. *)
Lemma applyDocumentRoot_spec cfg w :
  fst (applyDocumentRoot E cfg w)
  = with_staticFileServing (documentRootUsed E cfg)
      (with_baseUrl (documentRootUsed E cfg) w)
  /\ snd (applyDocumentRoot E cfg w)
     = Log LInfo MsgApplySettings
       :: (if documentRootInvalid E (documentRootAsked E cfg)
           then [Log LError (MsgDocumentRootInvalid (documentRootAsked E cfg))]
           else [])
       ++ [Log LInfo (MsgSetDocumentRoot (documentRootUsed E cfg));
           SetBaseUrl (documentRootUsed E cfg)].
Proof.
  unfold applyDocumentRoot, documentRootUsed, documentRootValid, documentRootInvalid,
    documentRootAsked.
  destruct (String.eqb _ ":/webconfig"), (trimmedIsEmpty _), (fileExists E _),
    (fileIsDir E _); split; reflexivity.
Qed.

Lemma applyDocumentRoot_steps cfg w :
  forallb isDocumentRootStep (snd (applyDocumentRoot E cfg w)) = true.
Proof.
  destruct (applyDocumentRoot_spec cfg w) as [_ ->].
  destruct (documentRootInvalid E (documentRootAsked E cfg)); reflexivity.
Qed.

(** The TLS block produces its own events only. *)
Lemma applyTls_steps cfg w :
  forallb isTlsStep (snd (applyTls E cfg w)) = true.
Proof.
  destruct (_useSsl w) eqn:Hssl.
  - rewrite (applyTls_ssl E cfg w Hssl). cbn [snd].
    rewrite !forallb_app. cbn [forallb isTlsStep]. rewrite !forallb_app.
    cbn [forallb isTlsStep].
    assert (H1 : forallb isTlsStep (snd (checkKeyPath E (keyPathAsked E cfg))) = true).
    { unfold checkKeyPath. destruct (negb _ && negb _); [destruct (negb _)|]; reflexivity. }
    assert (H2 : forallb isTlsStep (snd (checkCrtPath E (crtPathAsked E cfg))) = true).
    { unfold checkCrtPath. destruct (negb _ && negb _); [destruct (negb _)|]; reflexivity. }
    assert (H3 : forallb isTlsStep
                   (snd (filterValid E (crtPathUsed E cfg) (parsedCertificates E cfg) []))
                 = true).
    { rewrite filterValid_events. apply forallb_forall. intros e He.
      apply repeat_spec in He. subst e. reflexivity. }
    rewrite H1, H2, H3.
    destruct (filter (certificateUsable E) (parsedCertificates E cfg)); cbn [andb];
      unfold installKey; destruct (key_isNull (parsedKey E cfg)); reflexivity.
  - rewrite (applyTls_plain E cfg w Hssl). reflexivity.
Qed.

(** What a predicate on events finds in a run, when it finds nothing in
    the events of [stop], of the probe and of [start], and is not
    [portChanged]: what it finds in the document root block and in the TLS
    block. *)
Lemma run_filter (f : Event -> bool) cfg w w' evs :
  (forall e, isStopEvent e = true -> f e = false) ->
  (forall e, isNegotiation e = true -> f e = false) ->
  (forall e, isStartEvent e = true -> f e = false) ->
  (forall p, f (PortChanged p) = false) ->
  handleSettingsUpdate E WEBSERVER cfg w = Some (w', evs) ->
  exists w3,
    _useSsl w3 = _useSsl w
    /\ QtHttpServer.certificates (_server w3) = QtHttpServer.certificates (_server w)
    /\ QtHttpServer.privateKey (_server w3) = QtHttpServer.privateKey (_server w)
    /\ w' = fst (start E (fst (applyTls E cfg w3)))
    /\ filter f evs
       = filter f (snd (applyDocumentRoot E cfg w)) ++ filter f (snd (applyTls E cfg w3)).
Proof.
  intros Hstop Hneg Hstart Hpc Hrun.
  destruct (handleSettingsUpdate_inv cfg w w' evs Hrun) as [w3 [ev3 [Hn [Hw' Hevs]]]].
  destruct (afterPortBlock_frame E cfg w) as [_ [Hu2 [_ [_ [Hc2 Hk2]]]]].
  destruct (negotiate_frame E _ _ _ Hn) as [Hu3 [_ [Hs3 _]]].
  exists w3.
  split; [congruence|]. split; [rewrite Hs3; exact Hc2|]. split; [rewrite Hs3; exact Hk2|].
  split; [exact Hw'|].
  rewrite Hevs, !filter_app.
  rewrite (filter_disjoint f isStopEvent _ Hstop (applyPort_events E cfg _)).
  rewrite (filter_disjoint f isNegotiation _ Hneg (negotiate_events E _ _ _ Hn)).
  rewrite (filter_disjoint f isStartEvent _ Hstart (start_events E _)).
  cbn [filter]. rewrite Hpc. cbn [app]. rewrite app_nil_r. reflexivity.
Qed.

(** *** The document root through the later blocks *)

Lemma stop_roots w : documentRoots (fst (stop E w)) = documentRoots w.
Proof.
  destruct (isListening w) eqn:Hl.
  - rewrite (stop_listening E w Hl). reflexivity.
  - rewrite (stop_not_listening E w Hl). reflexivity.
Qed.

Lemma applyPort_roots cfg w : documentRoots (fst (applyPort E cfg w)) = documentRoots w.
Proof.
  unfold applyPort. destruct (negb _); [|reflexivity].
  rewrite stop_roots. reflexivity.
Qed.

Lemma negotiate_roots w w' evs :
  negotiate E w = Some (w', evs) -> documentRoots w' = documentRoots w.
Proof.
  unfold negotiate. destruct (negb (isListening w)).
  - destruct (portAvailable E (_port w)) as [[[b q] evs']|]; [|discriminate].
    intros H; inversion H; subst. reflexivity.
  - intros H; inversion H; subst. reflexivity.
Qed.

Lemma applyTls_roots cfg w : documentRoots (fst (applyTls E cfg w)) = documentRoots w.
Proof.
  destruct (_useSsl w) eqn:Hssl.
  - rewrite (applyTls_ssl E cfg w Hssl). cbv zeta. cbn [fst].
    unfold installKey, installCertificates.
    destruct (key_isNull (parsedKey E cfg)),
      (filter (certificateUsable E) (parsedCertificates E cfg)); reflexivity.
  - rewrite (applyTls_plain E cfg w Hssl). reflexivity.
Qed.

Lemma onServerStarted_roots port w :
  documentRoots (fst (onServerStarted E port w)) = documentRoots w.
Proof.
  unfold onServerStarted.
  destruct (ENABLE_BONJOUR E && negb (_useSsl (with_inited true w))); [|reflexivity].
  destruct (_serviceRegister (with_inited true w)) as [registered|]; [|reflexivity].
  destruct (negb (registered =? port)); reflexivity.
Qed.

Lemma start_roots w : documentRoots (fst (start E w)) = documentRoots w.
Proof.
  destruct (listen E (_port w)) eqn:Hb.
  - rewrite (start_bound E w Hb). cbn [fst]. rewrite onServerStarted_roots.
    reflexivity.
  - rewrite (start_refused E w Hb). reflexivity.
Qed.

Lemma run_roots cfg w w' evs :
  handleSettingsUpdate E WEBSERVER cfg w = Some (w', evs) ->
  documentRoots w' = (documentRootUsed E cfg, documentRootUsed E cfg).
Proof.
  intros Hrun.
  destruct (handleSettingsUpdate_inv cfg w w' evs Hrun) as [w3 [ev3 [Hn [Hw' _]]]].
  rewrite Hw', start_roots, applyTls_roots, (negotiate_roots _ _ _ Hn).
  unfold afterPortBlock. rewrite applyPort_roots.
  destruct (applyDocumentRoot_spec cfg w) as [-> _]. reflexivity.
Qed.

End Runs.

(** X3. After every returning run of the handler for the web server
    settings, the document root that the object holds is the one it has
    forwarded to the static file server, with one call of [setBaseUrl] in
    the run; and this root is either the built-in default or the directory
    named by the settings, which then exists and is a directory. *)
Theorem document_root_served (E : Env) (config : QJsonObject) (w w' : WebServer)
    (evs : list Event) :
  handleSettingsUpdate E WEBSERVER config w = Some (w', evs) ->
  _staticFileServing w' = _baseUrl w'
  /\ filter isSetBaseUrl evs = [SetBaseUrl (_baseUrl w')]
  /\ (_baseUrl w' = WEBSERVER_DEFAULT_PATH E
      \/ (_baseUrl w' = documentRootAsked E config
          /\ fileExists E (_baseUrl w') = true
          /\ fileIsDir E (_baseUrl w') = true)).
Proof.
  intros Hrun.
  pose proof (run_roots E config w w' evs Hrun) as Hroots.
  assert (Hb : _baseUrl w' = documentRootUsed E config)
    by exact (f_equal fst Hroots).
  assert (Hs : _staticFileServing w' = documentRootUsed E config)
    by exact (f_equal snd Hroots).
  rewrite Hs, Hb. clear Hroots Hb Hs.
  split; [reflexivity|]. split.
  - destruct (run_filter E isSetBaseUrl config w w' evs
                ltac:(event_cases) ltac:(event_cases) ltac:(event_cases)
                ltac:(reflexivity) Hrun) as [w3 [_ [_ [_ [_ Hf]]]]].
    rewrite Hf.
    rewrite (filter_disjoint isSetBaseUrl isTlsStep _ ltac:(event_cases)
               (applyTls_steps E config w3)).
    destruct (applyDocumentRoot_spec E config w) as [_ ->].
    destruct (documentRootInvalid E (documentRootAsked E config)); reflexivity.
  - unfold documentRootUsed, documentRootValid.
    destruct (negb (String.eqb (documentRootAsked E config) ":/webconfig")
              && negb (trimmedIsEmpty (documentRootAsked E config))
              && fileExists E (documentRootAsked E config)
              && fileIsDir E (documentRootAsked E config)) eqn:Hvalid.
    + right. apply andb_prop in Hvalid. destruct Hvalid as [Hvalid Hdir].
      apply andb_prop in Hvalid. destruct Hvalid as [_ Hex]. auto.
    + left. reflexivity.
Qed.

Lemma document_root_served_witness :
  exists w' evs,
    handleSettingsUpdate siteEnv WEBSERVER (siteConfig "/srv/www" 8090)
      (newWebServer 8090 false) = Some (w', evs)
    /\ _staticFileServing w' = _baseUrl w'
    /\ filter isSetBaseUrl evs = [SetBaseUrl (_baseUrl w')]
    /\ (_baseUrl w' = WEBSERVER_DEFAULT_PATH siteEnv
        \/ (_baseUrl w' = documentRootAsked siteEnv (siteConfig "/srv/www" 8090)
            /\ fileExists siteEnv (_baseUrl w') = true
            /\ fileIsDir siteEnv (_baseUrl w') = true)).
Proof.
  eexists. eexists. split; [vm_compute; reflexivity|].
  apply (document_root_served siteEnv (siteConfig "/srv/www" 8090)
           (newWebServer 8090 false)).
  vm_compute. reflexivity.
Defined.

(** X4. In every returning run, the error "document_root is invalid" is
    logged once when the settings name a document root of their own
    (neither ":/webconfig" nor blank) that is not an existing directory,
    and then the built-in default is served; it is not logged otherwise. *)
Theorem document_root_error_reported (E : Env) (config : QJsonObject)
    (w w' : WebServer) (evs : list Event) :
  handleSettingsUpdate E WEBSERVER config w = Some (w', evs) ->
  count isDocumentRootInvalid evs
  = (if documentRootInvalid E (documentRootAsked E config) then 1%nat else 0%nat)
  /\ (documentRootInvalid E (documentRootAsked E config) = true ->
      _baseUrl w' = WEBSERVER_DEFAULT_PATH E).
Proof.
  intros Hrun. split.
  - destruct (run_filter E isDocumentRootInvalid config w w' evs
                ltac:(event_cases) ltac:(event_cases) ltac:(event_cases)
                ltac:(reflexivity) Hrun) as [w3 [_ [_ [_ [_ Hf]]]]].
    unfold count. rewrite Hf.
    rewrite (filter_disjoint isDocumentRootInvalid isTlsStep _ ltac:(event_cases)
               (applyTls_steps E config w3)).
    destruct (applyDocumentRoot_spec E config w) as [_ ->].
    destruct (documentRootInvalid E (documentRootAsked E config)); reflexivity.
  - intros Hinv.
    pose proof (f_equal fst (run_roots E config w w' evs Hrun)) as Hb.
    cbn [fst documentRoots] in Hb. rewrite Hb.
    unfold documentRootUsed, documentRootValid.
    unfold documentRootInvalid in Hinv.
    destruct (negb (String.eqb (documentRootAsked E config) ":/webconfig")),
      (negb (trimmedIsEmpty (documentRootAsked E config))),
      (fileExists E (documentRootAsked E config)),
      (fileIsDir E (documentRootAsked E config));
      try reflexivity; discriminate Hinv.
Qed.

Lemma document_root_error_reported_witness :
  exists w' evs,
    handleSettingsUpdate siteEnv WEBSERVER (siteConfig "/srv/index.html" 8090)
      (newWebServer 8090 false) = Some (w', evs)
    /\ count isDocumentRootInvalid evs
       = (if documentRootInvalid siteEnv
               (documentRootAsked siteEnv (siteConfig "/srv/index.html" 8090))
          then 1%nat else 0%nat)
    /\ (documentRootInvalid siteEnv
          (documentRootAsked siteEnv (siteConfig "/srv/index.html" 8090)) = true ->
        _baseUrl w' = WEBSERVER_DEFAULT_PATH siteEnv).
Proof.
  eexists. eexists. split; [vm_compute; reflexivity|].
  apply (document_root_error_reported siteEnv (siteConfig "/srv/index.html" 8090)
           (newWebServer 8090 false)).
  vm_compute. reflexivity.
Defined.

(** ** The port that a run publishes *)

Section PublishedPort.

Variable E : Env.

Lemma negotiate_port_range w w' evs :
  in_range (_port w) -> negotiate E w = Some (w', evs) -> in_range (_port w').
Proof.
  intros Hr. unfold negotiate. destruct (negb (isListening w)).
  - destruct (portAvailable E (_port w)) as [[[b q] evs']|] eqn:Hpa; [|discriminate].
    intros H; inversion H; subst. cbn [_port with_port].
    destruct (portAvailable_steps E _ _ _ _ Hr Hpa) as [k [_ [Hq _]]].
    rewrite Hq. apply to_quint16_range.
  - intros H; inversion H; subst. exact Hr.
Qed.

Lemma run_port_range cfg w w' evs :
  handleSettingsUpdate E WEBSERVER cfg w = Some (w', evs) -> in_range (_port w').
Proof.
  intros Hrun.
  destruct (handleSettingsUpdate_inv E cfg w w' evs Hrun) as [w3 [ev3 [Hn [Hw' _]]]].
  destruct (start_frame E (fst (applyTls E cfg w3))) as [Hp5 _].
  destruct (applyTls_frame E cfg w3) as [Hp4 _]. cbv zeta in *.
  rewrite Hw', Hp5, Hp4.
  assert (Hr2 : in_range (_port (afterPortBlock E cfg w))).
  { destruct (afterPortBlock_frame E cfg w) as [Hp2 _]. rewrite Hp2.
    apply newPort_range. }
  exact (negotiate_port_range _ _ _ Hr2 Hn).
Qed.

End PublishedPort.

(** X5. In every returning run the port left in [_port], which is the
    one published, is the requested port moved on, in the cyclic order of
    [quint16], past ports that the probe was refused and past nothing
    else; the run logs one "already in use" warning for each port passed.
    When the run has probed, the port it ends on was accepted; when the
    server stayed bound, nothing is passed and the port is the requested
    one. *)
Theorem published_port_negotiated (E : Env) (config : QJsonObject)
    (w w' : WebServer) (evs : list Event) :
  handleSettingsUpdate E WEBSERVER config w = Some (w', evs) ->
  exists k : nat,
    Z.of_nat k < modulus
    /\ _port w' = to_quint16 (newPort config w + Z.of_nat k)
    /\ refusedUpTo E (newPort config w) k
    /\ count isPortInUse evs = k
    /\ (isListening (afterPortBlock E config w) = false -> listen E (_port w') = true)
    /\ (isListening (afterPortBlock E config w) = true -> k = O).
Proof.
  intros Hrun.
  destruct (handleSettingsUpdate_inv E config w w' evs Hrun)
    as [w3 [ev3 [Hn [Hw' Hevs]]]].
  destruct (start_frame E (fst (applyTls E config w3))) as [Hp5 _].
  destruct (applyTls_frame E config w3) as [Hp4 _]. cbv zeta in *.
  destruct (afterPortBlock_frame E config w) as [Hp2 _].
  assert (Hport : _port w' = _port w3) by (rewrite Hw', Hp5, Hp4; reflexivity).
  assert (Hcount : count isPortInUse evs = count isPortInUse ev3).
  { rewrite Hevs, !count_app.
    rewrite (count_disjoint isPortInUse isDocumentRootStep _ ltac:(event_cases)
               (applyDocumentRoot_steps E config w)).
    rewrite (count_disjoint isPortInUse isStopEvent _ ltac:(event_cases)
               (applyPort_events E config _)).
    rewrite (count_disjoint isPortInUse isTlsStep _ ltac:(event_cases)
               (applyTls_steps E config w3)).
    rewrite (count_disjoint isPortInUse isStartEvent _ ltac:(event_cases)
               (start_events E _)).
    change (count isPortInUse [PortChanged (_port w')]) with O. lia. }
  rewrite Hport, Hcount. clear Hport Hcount Hevs Hw' Hp5 Hp4.
  destruct (isListening (afterPortBlock E config w)) eqn:Hl.
  - rewrite (negotiate_listening E _ Hl) in Hn. inversion Hn; subst.
    exists O. rewrite Hp2, Z.add_0_r, (to_quint16_small _ (newPort_range config w)).
    unfold modulus. repeat split; try reflexivity; try lia; try discriminate.
    intros i Hi. lia.
  - rewrite (negotiate_not_listening E _ Hl), Hp2 in Hn.
    destruct (portAvailable E (newPort config w)) as [[[b q] evs']|] eqn:Hpa;
      [|discriminate].
    inversion Hn; subst. cbn [_port with_port].
    destruct (portAvailable_steps E _ _ _ _ (newPort_range config w) Hpa)
      as [k [Hk [Hq [Href [Hfree Hc]]]]].
    exists k. repeat split; try assumption; try discriminate.
    intros _. exact Hfree.
Qed.

(** Ports 8090 and 8091 taken: the run ends on 8092 and has warned
    twice. *)
Lemma published_port_negotiated_witness :
  exists w' evs,
    handleSettingsUpdate (busyBetween 8090 8091) WEBSERVER (plainConfig 8090)
      (newWebServer 8090 false) = Some (w', evs)
    /\ exists k : nat,
         Z.of_nat k < modulus
         /\ _port w'
            = to_quint16 (newPort (plainConfig 8090) (newWebServer 8090 false)
                          + Z.of_nat k)
         /\ refusedUpTo (busyBetween 8090 8091)
              (newPort (plainConfig 8090) (newWebServer 8090 false)) k
         /\ count isPortInUse evs = k
         /\ (isListening (afterPortBlock (busyBetween 8090 8091) (plainConfig 8090)
                            (newWebServer 8090 false)) = false ->
             listen (busyBetween 8090 8091) (_port w') = true)
         /\ (isListening (afterPortBlock (busyBetween 8090 8091) (plainConfig 8090)
                            (newWebServer 8090 false)) = true -> k = O).
Proof.
  eexists. eexists. split; [vm_compute; reflexivity|].
  apply (published_port_negotiated (busyBetween 8090 8091) (plainConfig 8090)
           (newWebServer 8090 false)).
  vm_compute. reflexivity.
Defined.

(** X6. The port of the settings is taken modulo 2^16: settings whose
    [port] and [sslPort] members are values of an [int] that differ by
    multiples of 65536, and that agree elsewhere, make the handler do
    exactly the same (65536 asks for port 0, 73626 for port 8090). *)
Theorem requested_port_modulo (E : Env) (config : QJsonObject) (p s j k : Z)
    (w : WebServer) :
  fitsInt p = true -> fitsInt (p + j * modulus) = true ->
  fitsInt s = true -> fitsInt (s + k * modulus) = true ->
  handleSettingsUpdate E WEBSERVER
    (withPorts config (Some (p + j * modulus)) (Some (s + k * modulus))) w
  = handleSettingsUpdate E WEBSERVER (withPorts config (Some p) (Some s)) w.
Proof.
  intros Hp Hpj Hs Hsk.
  assert (Hnew : forall v,
             newPort (withPorts config (Some (p + j * modulus))
                        (Some (s + k * modulus))) v
             = newPort (withPorts config (Some p) (Some s)) v).
  { intros v. unfold newPort, to_quint16. cbn [withPorts cfg_port cfg_sslPort toInt].
    rewrite Hp, Hpj, Hs, Hsk. unfold modulus.
    destruct (_useSsl v); apply Z_mod_plus_full. }
  assert (Hport : forall v,
             applyPort E (withPorts config (Some (p + j * modulus))
                            (Some (s + k * modulus))) v
             = applyPort E (withPorts config (Some p) (Some s)) v).
  { intros v. unfold applyPort. rewrite Hnew. reflexivity. }
  rewrite !handleSettingsUpdate_WEBSERVER. unfold afterPortBlock.
  change (applyDocumentRoot E
            (withPorts config (Some (p + j * modulus)) (Some (s + k * modulus))) w)
    with (applyDocumentRoot E (withPorts config (Some p) (Some s)) w).
  rewrite Hport.
  destruct (negotiate E _) as [[w3 ev3]|]; [|reflexivity].
  change (applyTls E
            (withPorts config (Some (p + j * modulus)) (Some (s + k * modulus))) w3)
    with (applyTls E (withPorts config (Some p) (Some s)) w3).
  reflexivity.
Qed.

(** A plain instance asked for port 73626, that is 8090 + 65536, does what
    it does when asked for port 8090. *)
Lemma requested_port_modulo_witness :
  handleSettingsUpdate allFree WEBSERVER
    (withPorts (plainConfig 1) (Some (8090 + 1 * modulus)) (Some (8092 + 0 * modulus)))
    (newWebServer 8090 false)
  = handleSettingsUpdate allFree WEBSERVER
      (withPorts (plainConfig 1) (Some 8090) (Some 8092)) (newWebServer 8090 false).
Proof.
  apply (requested_port_modulo allFree (plainConfig 1) 8090 8092 1 0
           (newWebServer 8090 false)); reflexivity.
Defined.

(** ** What a run reports about TLS material *)

Section TlsReports.

Variable E : Env.

Lemma filter_repeat (f : Event -> bool) e n :
  filter f (repeat e n) = if f e then repeat e n else [].
Proof.
  induction n as [|n IH]; simpl.
  - destruct (f e); reflexivity.
  - rewrite IH. destruct (f e); reflexivity.
Qed.

Lemma filter_partition_length {A : Type} (f : A -> bool) (l : list A) :
  (List.length (filter f l) + List.length (filter (fun x => negb (f x)) l)
   = List.length l)%nat.
Proof.
  induction l as [|x l IH]; simpl; [reflexivity|].
  destruct (f x); simpl; lia.
Qed.

Lemma checkKeyPath_reports p : forallb isPathReport (snd (checkKeyPath E p)) = true.
Proof.
  unfold checkKeyPath. destruct (negb _ && negb _); [destruct (negb _)|]; reflexivity.
Qed.

Lemma checkCrtPath_reports p : forallb isPathReport (snd (checkCrtPath E p)) = true.
Proof.
  unfold checkCrtPath. destruct (negb _ && negb _); [destruct (negb _)|]; reflexivity.
Qed.

(** What a predicate finds in the TLS block, when it finds nothing in the
    reports of the path checks and is not the opening of a file. *)
Lemma applyTls_filter (f : Event -> bool) cfg w :
  _useSsl w = true ->
  (forall e, isPathReport e = true -> f e = false) ->
  (forall p, f (OpenFile p) = false) ->
  filter f (snd (applyTls E cfg w))
  = filter f (snd (filterValid E (crtPathUsed E cfg) (parsedCertificates E cfg) []))
    ++ filter f (snd (installCertificates (crtPathUsed E cfg)
                        (filter (certificateUsable E) (parsedCertificates E cfg)) w))
    ++ filter f (snd (installKey (keyPathUsed E cfg) (parsedKey E cfg)
                        (fst (installCertificates (crtPathUsed E cfg)
                                (filter (certificateUsable E)
                                   (parsedCertificates E cfg)) w)))).
Proof.
  intros Hssl Hpath Hopen. rewrite (applyTls_ssl E cfg w Hssl). cbn [snd].
  rewrite !filter_app. cbn [filter]. rewrite !Hopen. rewrite !filter_app.
  cbn [filter]. rewrite !Hopen.
  rewrite (filter_disjoint f isPathReport _ Hpath (checkKeyPath_reports _)).
  rewrite (filter_disjoint f isPathReport _ Hpath (checkCrtPath_reports _)).
  reflexivity.
Qed.

(** The same through a whole run. *)
Lemma run_tls_filter (f : Event -> bool) cfg w w' evs :
  _useSsl w = true ->
  (forall e, isStopEvent e = true -> f e = false) ->
  (forall e, isNegotiation e = true -> f e = false) ->
  (forall e, isStartEvent e = true -> f e = false) ->
  (forall e, isDocumentRootStep e = true -> f e = false) ->
  (forall e, isPathReport e = true -> f e = false) ->
  (forall p, f (PortChanged p) = false) ->
  (forall p, f (OpenFile p) = false) ->
  handleSettingsUpdate E WEBSERVER cfg w = Some (w', evs) ->
  exists w3,
    filter f evs
    = filter f (snd (filterValid E (crtPathUsed E cfg) (parsedCertificates E cfg) []))
      ++ filter f (snd (installCertificates (crtPathUsed E cfg)
                          (filter (certificateUsable E) (parsedCertificates E cfg)) w3))
      ++ filter f (snd (installKey (keyPathUsed E cfg) (parsedKey E cfg)
                          (fst (installCertificates (crtPathUsed E cfg)
                                  (filter (certificateUsable E)
                                     (parsedCertificates E cfg)) w3)))).
Proof.
  intros Hssl Hstop Hneg Hstart Hroot Hpath Hpc Hopen Hrun.
  destruct (run_filter E f cfg w w' evs Hstop Hneg Hstart Hpc Hrun)
    as [w3 [Hu3 [_ [_ [_ Hf]]]]].
  exists w3. rewrite Hf.
  rewrite (filter_disjoint f isDocumentRootStep _ Hroot (applyDocumentRoot_steps E cfg w)).
  rewrite (applyTls_filter f cfg w3 ltac:(congruence) Hpath Hopen). reflexivity.
Qed.

End TlsReports.

(** X7. A returning run on an instance that is not a TLS instance
    produces no event of the TLS block (no file opened, no certificate or
    key set, none of its log lines) and leaves the installed certificates
    and key as they were. *)
Theorem plain_instance_skips_tls (E : Env) (config : QJsonObject)
    (w w' : WebServer) (evs : list Event) :
  _useSsl w = false ->
  handleSettingsUpdate E WEBSERVER config w = Some (w', evs) ->
  filter isTlsStep evs = []
  /\ QtHttpServer.certificates (_server w') = QtHttpServer.certificates (_server w)
  /\ QtHttpServer.privateKey (_server w') = QtHttpServer.privateKey (_server w).
Proof.
  intros Hssl Hrun.
  destruct (run_filter E isTlsStep config w w' evs
              ltac:(event_cases) ltac:(event_cases) ltac:(event_cases)
              ltac:(reflexivity) Hrun) as [w3 [Hu3 [Hc3 [Hk3 [Hw' Hf]]]]].
  assert (Hplain : applyTls E config w3 = (w3, [])).
  { apply applyTls_plain. congruence. }
  rewrite Hplain in Hf, Hw'. cbn [fst snd] in Hf, Hw'.
  destruct (start_frame E w3) as [_ [_ [_ [Hc5 Hk5]]]]. cbv zeta in *.
  split; [|split].
  - rewrite Hf, app_nil_r.
    apply (filter_disjoint isTlsStep isDocumentRootStep _ ltac:(event_cases)
             (applyDocumentRoot_steps E config w)).
  - rewrite Hw', Hc5. exact Hc3.
  - rewrite Hw', Hk5. exact Hk3.
Qed.

Lemma plain_instance_skips_tls_witness :
  exists w' evs,
    handleSettingsUpdate (customFiles 0) WEBSERVER (plainConfig 8090)
      (newWebServer 8090 false) = Some (w', evs)
    /\ filter isTlsStep evs = []
    /\ QtHttpServer.certificates (_server w')
       = QtHttpServer.certificates (_server (newWebServer 8090 false))
    /\ QtHttpServer.privateKey (_server w')
       = QtHttpServer.privateKey (_server (newWebServer 8090 false)).
Proof.
  eexists. eexists. split; [vm_compute; reflexivity|].
  apply (plain_instance_skips_tls (customFiles 0) (plainConfig 8090)
           (newWebServer 8090 false)).
  - reflexivity.
  - vm_compute. reflexivity.
Defined.

(** X8. In a returning run on a TLS instance every parsed certificate is
    either kept or reported: the number of "invalid/not supported/reached
    expiry date" errors and the number of certificates kept add up to the
    number of certificates parsed. The error "No valid SSL certificate has
    been found" is logged once when none is kept, and not otherwise. *)
Theorem rejected_certificates_reported (E : Env) (config : QJsonObject)
    (w w' : WebServer) (evs : list Event) :
  _useSsl w = true ->
  handleSettingsUpdate E WEBSERVER config w = Some (w', evs) ->
  (count isCertificateInvalid evs
   + List.length (filter (certificateUsable E) (parsedCertificates E config))
   = List.length (parsedCertificates E config))%nat
  /\ count isNoValidCertificate evs
     = match filter (certificateUsable E) (parsedCertificates E config) with
       | [] => 1%nat
       | _ :: _ => 0%nat
       end.
Proof.
  intros Hssl Hrun. split.
  - destruct (run_tls_filter E isCertificateInvalid config w w' evs Hssl
                ltac:(event_cases) ltac:(event_cases) ltac:(event_cases)
                ltac:(event_cases) ltac:(event_cases)
                ltac:(reflexivity) ltac:(reflexivity) Hrun) as [w3 Hf].
    unfold count. rewrite Hf, filterValid_events, filter_repeat.
    cbn [isCertificateInvalid]. rewrite !length_app, repeat_length.
    pose proof (filter_partition_length (certificateUsable E)
                  (parsedCertificates E config)) as Hpart.
    unfold installKey. destruct (key_isNull (parsedKey E config));
      destruct (filter (certificateUsable E) (parsedCertificates E config));
      simpl in *; lia.
  - destruct (run_tls_filter E isNoValidCertificate config w w' evs Hssl
                ltac:(event_cases) ltac:(event_cases) ltac:(event_cases)
                ltac:(event_cases) ltac:(event_cases)
                ltac:(reflexivity) ltac:(reflexivity) Hrun) as [w3 Hf].
    unfold count. rewrite Hf, filterValid_events, filter_repeat.
    cbn [isNoValidCertificate app].
    unfold installKey. destruct (key_isNull (parsedKey E config));
      destruct (filter (certificateUsable E) (parsedCertificates E config));
      reflexivity.
Qed.

(** X9. In a returning run on a TLS instance the key half is settled
    once: when the parsed key is null the error about the key is logged
    once and no key is set; otherwise the parsed key is set once and the
    error is not logged. The certificates play no part in this. *)
Theorem key_half_reported (E : Env) (config : QJsonObject)
    (w w' : WebServer) (evs : list Event) :
  _useSsl w = true ->
  handleSettingsUpdate E WEBSERVER config w = Some (w', evs) ->
  count isKeyInvalid evs = (if key_isNull (parsedKey E config) then 1%nat else 0%nat)
  /\ filter isSetPrivateKey evs
     = (if key_isNull (parsedKey E config) then []
        else [SetPrivateKey (parsedKey E config)]).
Proof.
  intros Hssl Hrun. split.
  - destruct (run_tls_filter E isKeyInvalid config w w' evs Hssl
                ltac:(event_cases) ltac:(event_cases) ltac:(event_cases)
                ltac:(event_cases) ltac:(event_cases)
                ltac:(reflexivity) ltac:(reflexivity) Hrun) as [w3 Hf].
    unfold count. rewrite Hf, filterValid_events, filter_repeat.
    cbn [isKeyInvalid app].
    unfold installKey. destruct (key_isNull (parsedKey E config));
      destruct (filter (certificateUsable E) (parsedCertificates E config));
      reflexivity.
  - destruct (run_tls_filter E isSetPrivateKey config w w' evs Hssl
                ltac:(event_cases) ltac:(event_cases) ltac:(event_cases)
                ltac:(event_cases) ltac:(event_cases)
                ltac:(reflexivity) ltac:(reflexivity) Hrun) as [w3 Hf].
    rewrite Hf, filterValid_events, filter_repeat.
    cbn [isSetPrivateKey app].
    unfold installKey. destruct (key_isNull (parsedKey E config));
      destruct (filter (certificateUsable E) (parsedCertificates E config));
      reflexivity.
Qed.

Lemma rejected_certificates_reported_witness :
  exists w' evs,
    handleSettingsUpdate mixedFiles WEBSERVER (tlsConfig 8092 None None)
      (newWebServer 8090 true) = Some (w', evs)
    /\ (count isCertificateInvalid evs
        + List.length (filter (certificateUsable mixedFiles)
                         (parsedCertificates mixedFiles (tlsConfig 8092 None None)))
        = List.length (parsedCertificates mixedFiles (tlsConfig 8092 None None)))%nat
    /\ count isNoValidCertificate evs
       = match filter (certificateUsable mixedFiles)
                 (parsedCertificates mixedFiles (tlsConfig 8092 None None)) with
         | [] => 1%nat
         | _ :: _ => 0%nat
         end.
Proof.
  eexists. eexists. split; [vm_compute; reflexivity|].
  eapply (rejected_certificates_reported mixedFiles (tlsConfig 8092 None None)
            (newWebServer 8090 true)).
  - reflexivity.
  - vm_compute. reflexivity.
Defined.

Lemma key_half_reported_witness :
  exists w' evs,
    handleSettingsUpdate mixedFiles WEBSERVER (tlsConfig 8092 None None)
      (newWebServer 8090 true) = Some (w', evs)
    /\ count isKeyInvalid evs
       = (if key_isNull (parsedKey mixedFiles (tlsConfig 8092 None None))
          then 1%nat else 0%nat)
    /\ filter isSetPrivateKey evs
       = (if key_isNull (parsedKey mixedFiles (tlsConfig 8092 None None)) then []
          else [SetPrivateKey (parsedKey mixedFiles (tlsConfig 8092 None None))]).
Proof.
  eexists. eexists. split; [vm_compute; reflexivity|].
  eapply (key_half_reported mixedFiles (tlsConfig 8092 None None)
            (newWebServer 8090 true)).
  - reflexivity.
  - vm_compute. reflexivity.
Defined.

(** ** The slot of the signal [started], twice *)

(** X10. When [onServerStarted] runs a second time for the same port, it
    makes no call of the service announcer (nothing is announced twice,
    nothing is withdrawn) and leaves the object as the first run has left
    it, with [_inited] set. *)
Theorem started_again_announces_nothing (E : Env) (port : Z) (w : WebServer) :
  count isAnnounce (snd (onServerStarted E port (fst (onServerStarted E port w)))) = 0%nat
  /\ count isWithdraw (snd (onServerStarted E port (fst (onServerStarted E port w))))
     = 0%nat
  /\ fst (onServerStarted E port (fst (onServerStarted E port w)))
     = fst (onServerStarted E port w)
  /\ _inited (fst (onServerStarted E port w)) = true.
Proof.
  unfold onServerStarted.
  destruct w as [p ssl ini url dflt srv sfs reg].
  cbn [_useSsl _serviceRegister with_inited _server].
  destruct (ENABLE_BONJOUR E), ssl; cbn [andb negb fst snd];
    try (repeat split; reflexivity).
  destruct reg as [registered|]; cbn [fst snd with_serviceRegister with_inited
                                         _useSsl _serviceRegister _server andb negb].
  - destruct (registered =? port) eqn:Hreg;
      cbn [negb fst snd with_serviceRegister with_inited _useSsl _serviceRegister
             _server andb];
      try rewrite Z.eqb_refl; try rewrite Hreg; cbn [negb fst snd];
      repeat split; reflexivity.
  - rewrite Z.eqb_refl. cbn [negb fst snd]. repeat split; reflexivity.
Qed.

(** ** States that can be reached *)

Section Reachable.

Variable E : Env.

(** A run changes neither the kind of the instance nor its default
    port. *)
Lemma run_kind cfg w w' evs :
  handleSettingsUpdate E WEBSERVER cfg w = Some (w', evs) ->
  _useSsl w' = _useSsl w /\ WEBSERVER_DEFAULT_PORT w' = WEBSERVER_DEFAULT_PORT w.
Proof.
  intros Hrun.
  destruct (handleSettingsUpdate_inv E cfg w w' evs Hrun) as [w3 [ev3 [Hn [Hw' _]]]].
  destruct (start_frame E (fst (applyTls E cfg w3))) as [_ [Hu5 [Hd5 _]]].
  destruct (applyTls_frame E cfg w3) as [_ [Hu4 [Hd4 _]]].
  destruct (negotiate_frame E _ _ _ Hn) as [Hu3 [Hd3 _]].
  destruct (afterPortBlock_frame E cfg w) as [_ [Hu2 [Hd2 _]]].
  cbv zeta in *. rewrite Hw'. split; congruence.
Qed.

(** A run that returns from an object that does not listen has found a
    port to bind. *)
Lemma run_from_stopped_needs_port cfg w w' evs :
  isListening w = false ->
  handleSettingsUpdate E WEBSERVER cfg w = Some (w', evs) ->
  somePortFree E.
Proof.
  intros Hl Hrun.
  destruct (handleSettingsUpdate_inv E cfg w w' evs Hrun) as [w3 [ev3 [Hn _]]].
  rewrite (negotiate_not_listening E _ (afterPortBlock_not_listening E cfg w Hl)) in Hn.
  destruct (afterPortBlock_frame E cfg w) as [Hp2 _]. rewrite Hp2 in Hn.
  destruct (portAvailable E (newPort cfg w)) as [[[b q] evs']|] eqn:Hpa; [|discriminate].
  destruct (portAvailable_steps E _ _ _ _ (newPort_range cfg w) Hpa)
    as [k [_ [Hq [_ [Hfree _]]]]].
  exists q. split; [rewrite Hq; apply to_quint16_range|exact Hfree].
Qed.

End Reachable.

(** X11. [initServer] returns if and only if some port can be bound (the
    new server does not listen, so that the probe always runs); and when
    it returns, its first two log lines are "Initialize Webserver" and
    "Apply Webserver settings". *)
Theorem initServer_returns_iff (E : Env) (defaultPort : Z) (useSsl : bool)
    (config : QJsonObject) :
  (initServer E defaultPort useSsl config <> None <-> somePortFree E)
  /\ (forall w evs,
         initServer E defaultPort useSsl config = Some (w, evs) ->
         exists rest,
           evs = Log LInfo MsgInitialize :: Log LInfo MsgApplySettings :: rest).
Proof.
  unfold initServer. split; [split|].
  - destruct (handleSettingsUpdate E WEBSERVER config (newWebServer defaultPort useSsl))
      as [[w evs]|] eqn:Hrun; [|congruence].
    intros _.
    apply (run_from_stopped_needs_port E config (newWebServer defaultPort useSsl) w evs);
      [|exact Hrun].
    destruct useSsl; reflexivity.
  - intros Hfree.
    destruct (handleSettingsUpdate_negotiates E config
                (newWebServer defaultPort useSsl) Hfree) as [w3 [ev3 Hn]].
    rewrite handleSettingsUpdate_WEBSERVER, Hn. discriminate.
  - intros w evs.
    destruct (handleSettingsUpdate E WEBSERVER config (newWebServer defaultPort useSsl))
      as [[w1 evs1]|] eqn:Hrun; [|discriminate].
    intros H; inversion H; subst.
    destruct (handleSettingsUpdate_inv E config _ _ _ Hrun) as [w3 [ev3 [_ [_ Hevs]]]].
    destruct (applyDocumentRoot_spec E config (newWebServer defaultPort useSsl))
      as [_ Hroot].
    rewrite Hroot in Hevs. rewrite Hevs. cbn [app]. eauto.
Qed.

(** X12. Every object that [initServer] and then any sequence of calls of
    [handleSettingsUpdate] (of any settings type) can leave satisfies:
    [_port] is a [quint16]; the instance is still of the kind it was
    created as, with 8092 as default port on a TLS instance and the default
    of the header otherwise; and the document root held is the one
    forwarded to the static file server. *)
Theorem reachable_state_invariant (E : Env) (defaultPort : Z) (useSsl : bool)
    (config : QJsonObject) (updates : list (settings_type * QJsonObject))
    (w0 w : WebServer) (evs0 evs : list Event) :
  initServer E defaultPort useSsl config = Some (w0, evs0) ->
  applyAll E updates w0 = Some (w, evs) ->
  in_range (_port w)
  /\ _useSsl w = useSsl
  /\ WEBSERVER_DEFAULT_PORT w = (if useSsl then 8092 else defaultPort)
  /\ _staticFileServing w = _baseUrl w.
Proof.
  intros Hinit Hall.
  assert (H0 : in_range (_port w0) /\ _useSsl w0 = useSsl
               /\ WEBSERVER_DEFAULT_PORT w0 = (if useSsl then 8092 else defaultPort)
               /\ _staticFileServing w0 = _baseUrl w0).
  { unfold initServer in Hinit.
    destruct (handleSettingsUpdate E WEBSERVER config (newWebServer defaultPort useSsl))
      as [[w1 evs1]|] eqn:Hrun; [|discriminate].
    inversion Hinit; subst w1. clear Hinit.
    destruct (run_kind E config _ _ _ Hrun) as [Hu Hd].
    pose proof (run_roots E config _ _ _ Hrun) as Hroots.
    split; [|split; [|split]].
    - apply (run_port_range E config _ _ _ Hrun).
    - rewrite Hu. reflexivity.
    - rewrite Hd. reflexivity.
    - rewrite (f_equal snd Hroots : _staticFileServing w0 = _),
        (f_equal fst Hroots : _baseUrl w0 = _). reflexivity. }
  clear Hinit. revert w0 evs H0 Hall.
  induction updates as [|[type cfg] rest IH]; intros w0 evs H0 Hall.
  - simpl in Hall. inversion Hall; subst. exact H0.
  - simpl in Hall.
    destruct (handleSettingsUpdate E type cfg w0) as [[w1 evs1]|] eqn:Hrun;
      [|discriminate].
    destruct (applyAll E rest w1) as [[w2 evs2]|] eqn:Hrest; [|discriminate].
    inversion Hall; subst. apply (IH w1 evs2); [|exact Hrest].
    destruct H0 as [Hr [Hu [Hd Hroot]]].
    destruct type as [|tag].
    + destruct (run_kind E cfg _ _ _ Hrun) as [Hu1 Hd1].
      pose proof (run_roots E cfg _ _ _ Hrun) as Hroots.
      split; [|split; [|split]].
      * apply (run_port_range E cfg _ _ _ Hrun).
      * congruence.
      * congruence.
      * rewrite (f_equal snd Hroots : _staticFileServing w1 = _),
          (f_equal fst Hroots : _baseUrl w1 = _). reflexivity.
    + unfold handleSettingsUpdate in Hrun. cbn [settings_type_eqb] in Hrun.
      inversion Hrun; subst. auto.
Qed.

Lemma reachable_state_invariant_witness :
  exists w0 evs0 w evs,
    initServer (busyBetween 8090 8090) 8090 false (plainConfig 8090) = Some (w0, evs0)
    /\ applyAll (busyBetween 8090 8090)
         [(OTHER_SETTINGS 1, plainConfig 1); (WEBSERVER, plainConfig 8095);
          (WEBSERVER, plainConfig 8095)] w0
       = Some (w, evs)
    /\ in_range (_port w)
    /\ _useSsl w = false
    /\ WEBSERVER_DEFAULT_PORT w = (if false then 8092 else 8090)
    /\ _staticFileServing w = _baseUrl w.
Proof.
  eexists. eexists. eexists. eexists.
  split; [vm_compute; reflexivity|].
  split; [vm_compute; reflexivity|].
  eapply (reachable_state_invariant (busyBetween 8090 8090) 8090 false (plainConfig 8090)
            [(OTHER_SETTINGS 1, plainConfig 1); (WEBSERVER, plainConfig 8095);
             (WEBSERVER, plainConfig 8095)]).
  - vm_compute. reflexivity.
  - vm_compute. reflexivity.
Defined.

(** ** The service announcer in a run *)

Section Announcer.

Variable E : Env.

(** The slot calls the announcer only on a plain instance of a build with
    Bonjour; elsewhere it leaves the registration as it is. *)
Lemma onServerStarted_bonjour port w c :
  In (Bonjour c) (snd (onServerStarted E port w)) ->
  ENABLE_BONJOUR E = true /\ _useSsl w = false.
Proof.
  unfold onServerStarted. destruct w as [po ssl ini url dflt srv sfs reg].
  cbn [_useSsl _serviceRegister with_inited _server].
  destruct (ENABLE_BONJOUR E), ssl; cbn [andb negb snd app];
    try (intros [H|[H|[]]]; discriminate H); auto.
Qed.

Lemma onServerStarted_register port w :
  ENABLE_BONJOUR E && negb (_useSsl w) = false ->
  _serviceRegister (fst (onServerStarted E port w)) = _serviceRegister w.
Proof.
  unfold onServerStarted. cbn [_useSsl with_inited]. intros ->. reflexivity.
Qed.

Lemma start_bonjour w c :
  In (Bonjour c) (snd (start E w)) -> ENABLE_BONJOUR E = true /\ _useSsl w = false.
Proof.
  assert (Hstop : ~ In (Bonjour c) (implicitStop w)).
  { unfold implicitStop.
    destruct (isListening w); [intros [H|[H|[]]]; discriminate H|intros []]. }
  destruct (listen E (_port w)) eqn:Hb.
  - rewrite (start_bound E w Hb). cbn [snd]. intros [H|H]; [discriminate H|].
    apply in_app_or in H. destruct H as [H|H]; [contradiction|].
    apply onServerStarted_bonjour in H. exact H.
  - rewrite (start_refused E w Hb). cbn [snd]. intros [H|H]; [discriminate H|].
    apply in_app_or in H. destruct H as [H|[H|[]]]; [contradiction|discriminate H].
Qed.

Lemma start_register w :
  ENABLE_BONJOUR E && negb (_useSsl w) = false ->
  _serviceRegister (fst (start E w)) = _serviceRegister w.
Proof.
  intros Hoff. destruct (listen E (_port w)) eqn:Hb.
  - rewrite (start_bound E w Hb). cbn [fst].
    rewrite onServerStarted_register; [reflexivity|exact Hoff].
  - rewrite (start_refused E w Hb). reflexivity.
Qed.

End Announcer.

(** X14. In every returning run the service announcer is only called by an
    instance that is not a TLS instance, in a build with Bonjour: a TLS
    instance, and any instance of a build without Bonjour, makes no call of
    the announcer and ends the run with the registration it had. *)
Theorem announcer_left_to_plain_instance (E : Env) (config : QJsonObject)
    (w w' : WebServer) (evs : list Event) :
  handleSettingsUpdate E WEBSERVER config w = Some (w', evs) ->
  (forall c, In (Bonjour c) evs -> ENABLE_BONJOUR E = true /\ _useSsl w = false)
  /\ (ENABLE_BONJOUR E && negb (_useSsl w) = false ->
      count isBonjour evs = 0%nat /\ _serviceRegister w' = _serviceRegister w).
Proof.
  intros Hrun.
  destruct (handleSettingsUpdate_inv E config w w' evs Hrun)
    as [w3 [ev3 [Hn [Hw' Hevs]]]].
  pose proof (applyDocumentRoot_steps E config w) as Hev1.
  pose proof (applyPort_events E config (fst (applyDocumentRoot E config w))) as Hev2.
  pose proof (negotiate_events E _ _ _ Hn) as Hev3.
  pose proof (applyTls_steps E config w3) as Hev4.
  destruct (applyTls_frame E config w3) as [_ [Hu4 [_ [Hr4 _]]]].
  destruct (negotiate_frame E _ _ _ Hn) as [Hu3 [_ [_ Hr3]]].
  destruct (afterPortBlock_frame E config w) as [_ [Hu2 [_ [Hr2 _]]]].
  cbv zeta in *.
  set (w4 := fst (applyTls E config w3)) in *.
  assert (Hssl : _useSsl w4 = _useSsl w) by congruence.
  assert (Hfilter : filter isBonjour evs = filter isBonjour (snd (start E w4))).
  { rewrite Hevs, !filter_app.
    rewrite (filter_disjoint isBonjour isDocumentRootStep _ ltac:(event_cases) Hev1).
    rewrite (filter_disjoint isBonjour isStopEvent _ ltac:(event_cases) Hev2).
    rewrite (filter_disjoint isBonjour isNegotiation _ ltac:(event_cases) Hev3).
    rewrite (filter_disjoint isBonjour isTlsStep _ ltac:(event_cases) Hev4).
    cbn [filter isBonjour app]. rewrite app_nil_r. reflexivity. }
  assert (Hin : forall c, In (Bonjour c) evs ->
                          ENABLE_BONJOUR E = true /\ _useSsl w = false).
  { intros c Hc.
    assert (Hf : In (Bonjour c) (filter isBonjour evs))
      by (apply filter_In; split; [exact Hc|reflexivity]).
    rewrite Hfilter in Hf. apply filter_In in Hf. destruct Hf as [Hf _].
    apply start_bonjour in Hf. rewrite Hssl in Hf. exact Hf. }
  split; [exact Hin|].
  intros Hoff. split.
  - unfold count. destruct (filter isBonjour evs) as [|e rest] eqn:Hfe; [reflexivity|].
    assert (He : In e (filter isBonjour evs)) by (rewrite Hfe; left; reflexivity).
    apply filter_In in He. destruct He as [He Hb].
    destruct e; try discriminate Hb.
    destruct (Hin _ He) as [Hon Hplain]. rewrite Hon, Hplain in Hoff. discriminate Hoff.
  - rewrite Hw', start_register; [congruence|].
    rewrite Hssl. exact Hoff.
Qed.

(** A TLS instance on a host where every port is free. *)
Lemma announcer_left_to_plain_instance_witness :
  exists w' evs,
    handleSettingsUpdate (customFiles 0) WEBSERVER (tlsConfig 8092 None None)
      (newWebServer 8090 true) = Some (w', evs)
    /\ (forall c,
           In (Bonjour c) evs ->
           ENABLE_BONJOUR (customFiles 0) = true /\ _useSsl (newWebServer 8090 true) = false)
    /\ (ENABLE_BONJOUR (customFiles 0) && negb (_useSsl (newWebServer 8090 true)) = false ->
        count isBonjour evs = 0%nat
        /\ _serviceRegister w' = _serviceRegister (newWebServer 8090 true)).
Proof.
  eexists. eexists. split; [vm_compute; reflexivity|].
  apply (announcer_left_to_plain_instance (customFiles 0) (tlsConfig 8092 None None)
           (newWebServer 8090 true)).
  vm_compute. reflexivity.
Defined.

(** X15. The port that [portAvailable] returns is stable: a second probe
    that asks for it returns it as it is, with result [true] and without
    a warning. *)
Theorem portAvailable_stable (E : Env) (P : Z) (b : bool) (q : Z) (evs : list Event) :
  in_range P ->
  portAvailable E P = Some (b, q, evs) ->
  portAvailable E q = Some (true, q, [Probe q true; ProbeClose]).
Proof.
  intros HP Hpa.
  destruct (portAvailable_steps E P b q evs HP Hpa) as [k [_ [_ [_ [Hfree _]]]]].
  apply portAvailable_free. exact Hfree.
Qed.

Lemma portAvailable_stable_witness :
  portAvailable (busyBetween 80 82) 83
  = Some (true, 83, [Probe 83 true; ProbeClose]).
Proof.
  eapply (portAvailable_stable (busyBetween 80 82) 80).
  - unfold in_range, modulus. lia.
  - vm_compute. reflexivity.
Defined.
